(** * jwt-express-middleware: a shallow embedding of the bearer-token gate

    The repository ships the same three functions twice
    ([jwtMiddleware], [extractToken], [generateToken]): once in
    [src/unnamed/part_000] and once in [src/unnamed/part_001].  The two
    copies are embedded side by side, in [Module Part000] and
    [Module Part001], over one shared model of JavaScript values, of the
    Express request/response objects and of the [jsonwebtoken] interface. *)

From Stdlib Require Import String Ascii List Lia.
From stdpp Require Import base option strings gmap.
Import ListNotations.
Open Scope string_scope.

(** ** JavaScript values *)

(** An optional property of an object literal.  TypeScript's [f?: T]
    admits three run-time shapes, which object spread tells apart: the key
    is not there, the key is there and holds [undefined], the key holds a
    value. *)
Inductive Field (A : Type) : Type :=
| Missing
| Undef
| Has (a : A).
Arguments Missing {A}.
Arguments Undef {A}.
Arguments Has {A} a.

(** Reading [o.f]: a missing key reads as [undefined], here [None]. *)
Definition get {A} (f : Field A) : option A :=
  match f with
  | Has a => Some a
  | Missing | Undef => None
  end.

(** One key of [{ ...a, ...b }]: every own key of [b] wins, also one that
    holds [undefined]. *)
Definition over {A} (a b : Field A) : Field A :=
  match b with
  | Missing => a
  | Undef | Has _ => b
  end.

(** A call either returns or throws. *)
Inductive Result (E A : Type) : Type :=
| Return (a : A)
| Throw (e : E).
Arguments Return {E A} a.
Arguments Throw {E A} e.

Inductive JsError : Type :=
| TypeError (what : string)
| LibraryError (what : string).

(** ** Strings

    Node decodes header values as latin1, so a header value is a sequence of
    one-byte code units: [string]. *)

(** [s.startsWith(searchString)] *)
Fixpoint startsWith (s searchString : string) {struct searchString} : bool :=
  match searchString, s with
  | EmptyString, _ => true
  | String _ _, EmptyString => false
  | String p ps, String c cs => if Ascii.eqb c p then startsWith cs ps else false
  end.

(** [s.substring(start)]: the code units from index [start] on, the empty
    string when [start] is past the end. *)
Fixpoint substring (start : nat) (s : string) : string :=
  match start, s with
  | O, _ => s
  | S _, EmptyString => EmptyString
  | S n, String _ cs => substring n cs
  end.

(** [s.replace(pattern, replacement)] for a string pattern: the first
    occurrence only.  ([replacement] is taken literally; the source passes
    the empty string.) *)
Fixpoint replace (s pattern replacement : string) : string :=
  if startsWith s pattern
  then replacement ++ substring (String.length pattern) s
  else match s with
       | EmptyString => EmptyString
       | String c cs => String c (replace cs pattern replacement)
       end.

(** [s.split(sep)] for a one-character separator. *)
Fixpoint split_from (sep : ascii) (piece s : string) : list string :=
  match s with
  | EmptyString => [piece]
  | String c cs =>
      if Ascii.eqb c sep
      then piece :: split_from sep EmptyString cs
      else split_from sep (piece ++ String c EmptyString) cs
  end.

Definition split (s : string) (sep : ascii) : list string :=
  split_from sep EmptyString s.

(** JavaScript truthiness of a [string | undefined]. *)
Definition truthy (v : option string) : bool :=
  match v with
  | None => false
  | Some EmptyString => false
  | Some (String _ _) => true
  end.

(** ** The [jsonwebtoken] interface

    [sign] and [verify] are the library's; the development is parametric in
    them.  Only the shapes of their arguments and results are fixed here. *)
Module Jwt.

(** [Algorithm] is a union of string literals; at run time, a string. *)
Definition Algorithm : Type := string.

(** A decoded payload carries the caller's string claims and the numeric
    registered claims ([iat], [exp]) that signing adds. *)
Inductive ClaimValue : Type :=
| CStr (s : string)
| CNum (n : Z).

Record VerifyOptions : Type := { algorithms : option (list Algorithm) }.

Record SignOptions : Type :=
  { expiresIn : option string;
    algorithm : option Algorithm }.

(** What the callback of [verify] receives: [(err, undefined)] or
    [(null, decoded)]. *)
Inductive Outcome : Type :=
| Rejected (err : JsError)
| Verified (decoded : gmap string ClaimValue).

End Jwt.

(** [interface JwtPayload { [key: string]: string }] *)
Abbreviation JwtPayload := (gmap string string).
Abbreviation Decoded := (gmap string Jwt.ClaimValue).

(** ** Express: request, response, continuation *)

(** The part of the request the gate reads and writes: the header
    collection (keys lower-cased by Node) and the identity slot
    [req.user]. *)
Record Request : Type :=
  { headers : gmap string string;
    user : option Decoded }.

Definition set_user (d : option Decoded) (r : Request) : Request :=
  {| headers := headers r; user := d |}.

(** [res.status(code).json(body)] and [res.status(code).send(body)], with
    [body = { message: m }]; [m] may be [undefined]. *)
Inductive Emitter : Type := json | send.

Record Response : Type :=
  { status : nat;
    emitter : Emitter;
    body_message : option string }.

(** What one call of the handler does to its surroundings, in order:
    responses emitted through [res], and calls of [next] with the arguments
    passed and the request as the downstream handler finds it. *)
Inductive Event : Type :=
| Responded (r : Response)
| Continued (args : list JsError) (seen : Request).

Record World : Type :=
  { req : Request;
    trace : list Event }.

(** A small state monad over [World]. *)
Definition Eff (A : Type) : Type := World -> A * World.

Definition ret {A} (a : A) : Eff A := fun w => (a, w).

Definition bind {A B} (c : Eff A) (k : A -> Eff B) : Eff B :=
  fun w => let (a, w') := c w in k a w'.

Notation "x <- c ;; k" := (bind c (fun x => k))
  (at level 100, c at next level, right associativity).
Notation "c ;; k" := (bind c (fun _ => k))
  (at level 100, right associativity).

Definition emit (e : Event) : Eff unit :=
  fun w => (tt, {| req := req w; trace := trace w ++ [e] |}).

Definition read_req : Eff Request := fun w => (req w, w).

Definition res_status_json (code : nat) (m : option string) : Eff unit :=
  emit (Responded {| status := code; emitter := json; body_message := m |}).

Definition res_status_send (code : nat) (m : option string) : Eff unit :=
  emit (Responded {| status := code; emitter := send; body_message := m |}).

(** [req.user = decoded] *)
Definition assign_user (d : option Decoded) : Eff unit :=
  fun w => (tt, {| req := set_user d (req w); trace := trace w |}).

(** [next()] *)
Definition next : Eff unit :=
  fun w => (tt, {| req := req w; trace := trace w ++ [Continued [] (req w)] |}).

(** A handler is called on a request with nothing emitted yet. *)
Definition Handler : Type := Eff unit.

Definition run (h : Handler) (r : Request) : World :=
  snd (h {| req := r; trace := [] |}).

(** [verify(token, secretKey, options, callback)]: the library settles the
    verification and calls [callback] once, with [(err, undefined)] or with
    [(null, decoded)]. *)
Definition verify_with_callback
    (verify : string -> string -> Jwt.VerifyOptions -> Jwt.Outcome)
    (token secretKey : string) (options : Jwt.VerifyOptions)
    (callback : option JsError -> option Decoded -> Eff unit) : Eff unit :=
  match verify token secretKey options with
  | Jwt.Rejected err => callback (Some err) None
  | Jwt.Verified decoded => callback None (Some decoded)
  end.

(** Observations on a trace. *)
Definition is_response (e : Event) : bool :=
  match e with Responded _ => true | Continued _ _ => false end.

Definition is_continuation (e : Event) : bool :=
  match e with Responded _ => false | Continued _ _ => true end.

Definition responses (w : World) : list Event := filter is_response (trace w).
Definition continuations (w : World) : list Event := filter is_continuation (trace w).

(** ** The configuration of the specification

    [Configuration] is the record of the specification's data model.  A
    field holds [None] when the object the code builds holds [undefined]
    there. *)
Record Configuration : Type :=
  { successText : option string;
    errorText : option string;
    expiry : option string;
    allowedAlgorithms : option (list Jwt.Algorithm) }.

Module Spec.

(** Two configurations that differ at most in the success message. *)
Definition differ_only_in_success (c1 c2 : Configuration) : Prop :=
  errorText c1 = errorText c2
  /\ expiry c1 = expiry c2
  /\ allowedAlgorithms c1 = allowedAlgorithms c2.

End Spec.

(** ** [src/unnamed/part_000] *)
Module Part000.

Record Message : Type :=
  { success : Field string;
    error : Field string }.

Record JwtMiddlewareOptions : Type :=
  { message : Field Message;
    expiresIn : Field string;
    algorithms : Field (list Jwt.Algorithm) }.

Definition DEFAULT_OPTIONS : JwtMiddlewareOptions :=
  {| message := Has {| success := Has "Token is valid";
                       error := Has "Invalid token" |};
     expiresIn := Has "1h";
     algorithms := Has ["HS256"] |}.

(** The default of the parameter, [options = {}]. *)
Definition empty_options : JwtMiddlewareOptions :=
  {| message := Missing; expiresIn := Missing; algorithms := Missing |}.

(** [{ ...a, ...b }] on option objects. *)
Definition spread (a b : JwtMiddlewareOptions) : JwtMiddlewareOptions :=
  {| message := over (message a) (message b);
     expiresIn := over (expiresIn a) (expiresIn b);
     algorithms := over (algorithms a) (algorithms b) |}.

(** [{ ...a, ...b }] on message objects read off their owners: spreading
    [undefined] adds no key. *)
Definition spread_message (a b : option Message) : Message :=
  let empty := {| success := Missing; error := Missing |} in
  let a := default empty a in
  let b := default empty b in
  {| success := over (success a) (success b);
     error := over (error a) (error b) |}.

(** [{ ...o, message: m }]: a later key replaces an earlier one. *)
Definition with_message (o : JwtMiddlewareOptions) (m : Message)
  : JwtMiddlewareOptions :=
  {| message := Has m; expiresIn := expiresIn o; algorithms := algorithms o |}.

(** [{ ...DEFAULT_OPTIONS.message, ...options.message }] *)
Definition merged_message (options : JwtMiddlewareOptions) : Message :=
  spread_message (get (message DEFAULT_OPTIONS)) (get (message options)).

(** The object literal destructured on entry to [jwtMiddleware]. *)
Definition middleware_options (options : JwtMiddlewareOptions)
  : JwtMiddlewareOptions :=
  with_message (spread DEFAULT_OPTIONS options) (merged_message options).

(** The object literal destructured on entry to [generateToken]. *)
Definition token_options (options : JwtMiddlewareOptions)
  : JwtMiddlewareOptions :=
  spread DEFAULT_OPTIONS options.

(** The options object a call works on: the argument, or the default of
    the parameter. *)
Definition options_or_default (options : option JwtMiddlewareOptions)
  : JwtMiddlewareOptions :=
  default empty_options options.

(** The four settings read off an options object. *)
Definition configuration_of (o : JwtMiddlewareOptions) : Configuration :=
  {| successText := m ← get (message o); get (success m);
     errorText := m ← get (message o); get (error m);
     expiry := get (expiresIn o);
     allowedAlgorithms := get (algorithms o) |}.

Definition extractToken (req : Request) : option string :=
  let authHeader := headers req !! "authorization" in
  match authHeader with
  | Some h => if startsWith h "Bearer " then Some (substring 7 h) else None
  | None => None
  end.

Section Primitives.

Variable verify : string -> string -> Jwt.VerifyOptions -> Jwt.Outcome.
Variable sign :
  JwtPayload -> string -> Jwt.SignOptions -> Result JsError string.

Definition jwtMiddleware (secretKey : string)
    (options : option JwtMiddlewareOptions) : Handler :=
  let options := options_or_default options in
  let merged := middleware_options options in
  (* the [message] key of [merged], which the literal sets last *)
  let message := merged_message options in
  let algorithms := get (algorithms merged) in
  req <- read_req ;;
  let token := extractToken req in
  match token with
  | None | Some EmptyString =>
      res_status_json 401 (Some "Unauthorized: No token provided")
  | Some token =>
      verify_with_callback verify token secretKey
        {| Jwt.algorithms := algorithms |}
        (fun err decoded =>
           match err with
           | Some _ => res_status_json 401 (get (error message))
           | None => assign_user decoded ;; next
           end)
  end.

Definition generateToken (payload : JwtPayload) (secretKey : string)
    (options : option JwtMiddlewareOptions) : Result JsError string :=
  let options := options_or_default options in
  let merged := token_options options in
  let expiresIn := get (expiresIn merged) in
  match get (algorithms merged) with
  | None =>
      Throw (TypeError "Cannot read properties of undefined (reading '0')")
  | Some algorithms =>
      let signOptions :=
        {| Jwt.expiresIn := expiresIn;
           Jwt.algorithm := algorithms !! 0%nat |} in
      sign payload secretKey signOptions
  end.

End Primitives.

End Part000.

(** ** [src/unnamed/part_001] *)
Module Part001.

Record Message : Type :=
  { successMessage : Field string;
    errorMessage : Field string }.

Record JwtMiddlewareOptions : Type :=
  { message : Field Message;
    expiresIn : Field string;
    algorithms : Field (list Jwt.Algorithm) }.

Definition defaultOptions : JwtMiddlewareOptions :=
  {| message := Has {| successMessage := Has "Token is valid";
                       errorMessage := Has "Invalid token" |};
     expiresIn := Has "1h";
     algorithms := Has ["HS256"] |}.

(** [{ ...a, ...b }] on option objects. *)
Definition spread (a b : JwtMiddlewareOptions) : JwtMiddlewareOptions :=
  {| message := over (message a) (message b);
     expiresIn := over (expiresIn a) (expiresIn b);
     algorithms := over (algorithms a) (algorithms b) |}.

(** [{ ...a, ...b }] on message objects read off their owners. *)
Definition spread_message (a b : option Message) : Message :=
  let empty := {| successMessage := Missing; errorMessage := Missing |} in
  let a := default empty a in
  let b := default empty b in
  {| successMessage := over (successMessage a) (successMessage b);
     errorMessage := over (errorMessage a) (errorMessage b) |}.

Definition with_message (o : JwtMiddlewareOptions) (m : Message)
  : JwtMiddlewareOptions :=
  {| message := Has m; expiresIn := expiresIn o; algorithms := algorithms o |}.

Definition merged_message (options : JwtMiddlewareOptions) : Message :=
  spread_message (get (message defaultOptions)) (get (message options)).

(** The object literal destructured on entry to [jwtMiddleware]. *)
Definition middleware_options (options : JwtMiddlewareOptions)
  : JwtMiddlewareOptions :=
  with_message (spread defaultOptions options) (merged_message options).

(** The object literal destructured on entry to [generateToken]. *)
Definition token_options (options : JwtMiddlewareOptions)
  : JwtMiddlewareOptions :=
  spread defaultOptions options.

(** The options object a call works on: the argument, or the default of
    the parameter. *)
Definition options_or_default (options : option JwtMiddlewareOptions)
  : JwtMiddlewareOptions :=
  default defaultOptions options.

(** The four settings read off an options object. *)
Definition configuration_of (o : JwtMiddlewareOptions) : Configuration :=
  {| successText := m ← get (message o); get (successMessage m);
     errorText := m ← get (message o); get (errorMessage m);
     expiry := get (expiresIn o);
     allowedAlgorithms := get (algorithms o) |}.

(** [req.headers["authorization"]?.split(" ")[1] || ""] *)
Definition extractToken (req : Request) : string :=
  match headers req !! "authorization" with
  | None => ""
  | Some h =>
      match split h " "%char !! 1%nat with
      | None | Some EmptyString => ""
      | Some token => token
      end
  end.

Section Primitives.

Variable verify : string -> string -> Jwt.VerifyOptions -> Jwt.Outcome.
Variable sign :
  JwtPayload -> string -> Jwt.SignOptions -> Result JsError string.

Definition jwtMiddleware (secretKey : string)
    (options : option JwtMiddlewareOptions) : Handler :=
  let options := options_or_default options in
  let merged := middleware_options options in
  (* the [message] key of [merged], which the literal sets last *)
  let message := merged_message options in
  let algorithms := get (algorithms merged) in
  req <- read_req ;;
  let authorization := headers req !! "authorization" in
  match authorization with
  | None | Some EmptyString =>
      res_status_json 401 (Some "Unauthorized")
  | Some authorization =>
      let token := replace authorization "Bearer " "" in
      match token with
      | EmptyString => res_status_send 401 (get (errorMessage message))
      | String _ _ =>
          verify_with_callback verify token secretKey
            {| Jwt.algorithms := algorithms |}
            (fun err _decoded =>
               match err with
               | Some _ => res_status_send 401 (get (errorMessage message))
               | None => next
               end)
      end
  end.

Definition generateToken (payload : JwtPayload) (secretKey : string)
    (options : option JwtMiddlewareOptions) : Result JsError string :=
  let options := options_or_default options in
  let merged := token_options options in
  let expiresIn := get (expiresIn merged) in
  match get (algorithms merged) with
  | None =>
      Throw (TypeError "Cannot read properties of undefined (reading '0')")
  | Some algorithms =>
      let signOptions :=
        {| Jwt.expiresIn := expiresIn;
           Jwt.algorithm := algorithms !! 0%nat |} in
      sign payload secretKey signOptions
  end.

End Primitives.

End Part001.

(** ** The contract of the library, and stand-ins to run the model on *)

(** The claims that signing with [expiresIn] adds to a payload. *)
Definition injected_claims : list string := ["iat"; "exp"].

(** Equality of a decoded payload with the caller's claims, up to the
    injected claims. *)
Definition same_claims (payload : JwtPayload) (decoded : Decoded) : Prop :=
  ∀ k : string, k ∉ injected_claims → decoded !! k = Jwt.CStr <$> payload !! k.

Module Sample.

Definition request (authorization : option string) : Request :=
  {| headers := match authorization with
                | Some v => {[ "authorization" := v ]}
                | None => ∅
                end;
     user := None |}.

Definition claims : JwtPayload := {[ "userId" := "42" ]}.

Definition decoded_claims : Decoded :=
  <[ "userId" := Jwt.CStr "42" ]>
    (<[ "iat" := Jwt.CNum 0 ]> (<[ "exp" := Jwt.CNum 3600 ]> ∅)).

(** A verifier that accepts every token as [decoded_claims]. *)
Definition accept : string -> string -> Jwt.VerifyOptions -> Jwt.Outcome :=
  fun _ _ _ => Jwt.Verified decoded_claims.

(** A signer that returns one fixed token. *)
Definition sign_fixed
  : JwtPayload -> string -> Jwt.SignOptions -> Result JsError string :=
  fun _ _ _ => Return "header.payload.signature".

(** A table-driven pair for [claims]: the token names the algorithm and
    the key it was made with. *)
Definition token_of (alg key : string) : string := alg ++ "." ++ key.

Definition sign (payload : JwtPayload) (key : string)
    (o : Jwt.SignOptions) : Result JsError string :=
  match Jwt.algorithm o with
  | Some alg => Return (token_of alg key)
  | None => Throw (LibraryError "algorithm must be a valid string enum value")
  end.

Definition verify (token key : string) (o : Jwt.VerifyOptions)
  : Jwt.Outcome :=
  match Jwt.algorithms o with
  | Some algs =>
      if existsb (fun alg => String.eqb token (token_of alg key)) algs
      then Jwt.Verified decoded_claims
      else Jwt.Rejected (LibraryError "invalid token")
  | None => Jwt.Rejected (LibraryError "invalid token")
  end.

(** Options whose [algorithms] is the empty list. *)
Definition no_algorithms : Part000.JwtMiddlewareOptions :=
  {| Part000.message := Missing; Part000.expiresIn := Missing;
     Part000.algorithms := Has [] |}.

(** Two option objects that differ in the success message only. *)
Definition plain_success : Part000.JwtMiddlewareOptions :=
  {| Part000.message :=
       Has {| Part000.success := Missing; Part000.error := Has "Denied" |};
     Part000.expiresIn := Has "2h";
     Part000.algorithms := Has ["HS256"; "HS384"] |}.

Definition custom_success : Part000.JwtMiddlewareOptions :=
  {| Part000.message :=
       Has {| Part000.success := Has "Welcome"; Part000.error := Has "Denied" |};
     Part000.expiresIn := Has "2h";
     Part000.algorithms := Has ["HS256"; "HS384"] |}.

(** The configuration of the specification's scenario. *)
Definition one_hour_hs256 : Part000.JwtMiddlewareOptions :=
  {| Part000.message := Missing;
     Part000.expiresIn := Has "1h";
     Part000.algorithms := Has ["HS256"] |}.

End Sample.

(** The caller leaves [algorithms] out or supplies a list with a first
    element. *)
Definition omitted_or_nonempty {A} (f : Field (list A)) : Prop :=
  f = Missing ∨ ∃ a rest, f = Has (a :: rest).

(** The two fixed responses of the gates. *)
Definition no_token_response : Response :=
  {| status := 401; emitter := json;
     body_message := Some "Unauthorized: No token provided" |}.

Definition unauthorized_response : Response :=
  {| status := 401; emitter := json; body_message := Some "Unauthorized" |}.

(** ** The data model of the specification, and the behaviour it gives

    These definitions follow the words of the specification; the code is
    compared with them. *)
Module DataModel.

(** "Configuration: { successText, errorText, expiry, allowedAlgorithms[] }" *)
Record Configuration : Type :=
  { successText : string;
    errorText : string;
    expiry : string;
    allowedAlgorithms : list Jwt.Algorithm }.

(** A partial configuration: each setting is left out or given a value. *)
Record Partial : Type :=
  { given_successText : option string;
    given_errorText : option string;
    given_expiry : option string;
    given_allowedAlgorithms : option (list Jwt.Algorithm) }.

(** "Defaults: successText="Token is valid", errorText="Invalid token",
    expiry="1h", allowedAlgorithms=["HS256"]" *)
Definition defaults : Configuration :=
  {| successText := "Token is valid";
     errorText := "Invalid token";
     expiry := "1h";
     allowedAlgorithms := ["HS256"] |}.

(** "A caller-supplied partial configuration overrides defaults
    field-by-field, with the nested message pair merged independently":
    each of the four settings is the caller's when given, else the
    default. *)
Definition merge (d : Configuration) (p : Partial) : Configuration :=
  {| successText := default (successText d) (given_successText p);
     errorText := default (errorText d) (given_errorText p);
     expiry := default (expiry d) (given_expiry p);
     allowedAlgorithms :=
       default (allowedAlgorithms d) (given_allowedAlgorithms p) |}.

(** Section 4.2: the gate under configuration [c], for a token-or-absent
    [token] and the fixed response [absent] of the missing-token case. *)
Definition gate (absent : Response) (how : Emitter)
    (attach : Decoded -> Request -> Request) (c : Configuration)
    (verify : string -> string -> Jwt.VerifyOptions -> Jwt.Outcome)
    (secretKey : string) (token : option string) (r : Request) : World :=
  match token with
  | None => {| req := r; trace := [Responded absent] |}
  | Some token =>
      match verify token secretKey
              {| Jwt.algorithms := Some (allowedAlgorithms c) |} with
      | Jwt.Rejected _ =>
          {| req := r;
             trace := [Responded {| status := 401; emitter := how;
                                    body_message := Some (errorText c) |}] |}
      | Jwt.Verified decoded =>
          {| req := attach decoded r;
             trace := [Continued [] (attach decoded r)] |}
      end
  end.

(** Section 4.3: the issuer under configuration [c] signs with the expiry
    and the first of the allowed algorithms. *)
Definition issue (c : Configuration)
    (sign : JwtPayload -> string -> Jwt.SignOptions -> Result JsError string)
    (payload : JwtPayload) (secretKey : string) : Result JsError string :=
  sign payload secretKey
    {| Jwt.expiresIn := Some (expiry c);
       Jwt.algorithm := allowedAlgorithms c !! 0%nat |}.

(** The round trip that the signing and verifying primitives promise, for
    the signing inputs [valid] singles out (a payload, key and options that
    the signer accepts and whose token is live when verified): the token is
    not empty and verifies, with the same key and any allow-list that has the
    signing algorithm, to the same claims up to the injected ones. *)
Definition round_trip
    (sign : JwtPayload -> string -> Jwt.SignOptions -> Result JsError string)
    (verify : string -> string -> Jwt.VerifyOptions -> Jwt.Outcome)
    (valid : JwtPayload -> string -> Jwt.SignOptions -> Prop) : Prop :=
  ∀ payload key options alg algs,
    valid payload key options →
    Jwt.algorithm options = Some alg →
    alg ∈ algs →
    ∃ token decoded,
      sign payload key options = Return token
      ∧ token ≠ ""
      ∧ verify token key {| Jwt.algorithms := Some algs |} = Jwt.Verified decoded
      ∧ same_claims payload decoded.

End DataModel.

(** A property holds no explicit [undefined]. *)
Definition not_undefined {A} (f : Field A) : bool :=
  match f with
  | Undef => false
  | Missing | Has _ => true
  end.

(** The partial configuration that a caller's options object of [part_000]
    stands for, and whether the object is one: no key is set to
    [undefined]. *)
Definition given000 (options : option Part000.JwtMiddlewareOptions)
  : DataModel.Partial :=
  match options with
  | None =>
      {| DataModel.given_successText := None;
         DataModel.given_errorText := None;
         DataModel.given_expiry := None;
         DataModel.given_allowedAlgorithms := None |}
  | Some o =>
      {| DataModel.given_successText :=
           m ← get (Part000.message o); get (Part000.success m);
         DataModel.given_errorText :=
           m ← get (Part000.message o); get (Part000.error m);
         DataModel.given_expiry := get (Part000.expiresIn o);
         DataModel.given_allowedAlgorithms := get (Part000.algorithms o) |}
  end.

Definition plain000 (options : option Part000.JwtMiddlewareOptions) : bool :=
  match options with
  | None => true
  | Some o =>
      not_undefined (Part000.message o)
      && not_undefined (Part000.expiresIn o)
      && not_undefined (Part000.algorithms o)
      && match Part000.message o with
         | Has m =>
             not_undefined (Part000.success m)
             && not_undefined (Part000.error m)
         | Missing | Undef => true
         end
  end.

(** The same for [part_001]. *)
Definition given001 (options : option Part001.JwtMiddlewareOptions)
  : DataModel.Partial :=
  match options with
  | None =>
      {| DataModel.given_successText := None;
         DataModel.given_errorText := None;
         DataModel.given_expiry := None;
         DataModel.given_allowedAlgorithms := None |}
  | Some o =>
      {| DataModel.given_successText :=
           m ← get (Part001.message o); get (Part001.successMessage m);
         DataModel.given_errorText :=
           m ← get (Part001.message o); get (Part001.errorMessage m);
         DataModel.given_expiry := get (Part001.expiresIn o);
         DataModel.given_allowedAlgorithms := get (Part001.algorithms o) |}
  end.

Definition plain001 (options : option Part001.JwtMiddlewareOptions) : bool :=
  match options with
  | None => true
  | Some o =>
      not_undefined (Part001.message o)
      && not_undefined (Part001.expiresIn o)
      && not_undefined (Part001.algorithms o)
      && match Part001.message o with
         | Has m =>
             not_undefined (Part001.successMessage m)
             && not_undefined (Part001.errorMessage m)
         | Missing | Undef => true
         end
  end.

(** The token-or-absent that the gate of [part_000] works on: the empty
    string counts as absent. *)
Definition token000 (r : Request) : option string :=
  match Part000.extractToken r with
  | None | Some EmptyString => None
  | Some token => Some token
  end.

(** A stand-in for the library that, like it, refuses the algorithm names
    it does not know. *)
Module Strict.

Definition supported : list Jwt.Algorithm := ["HS256"; "HS384"; "HS512"].

Definition sign (payload : JwtPayload) (key : string)
    (o : Jwt.SignOptions) : Result JsError string :=
  match Jwt.algorithm o with
  | Some alg =>
      if bool_decide (alg ∈ supported)
      then Return (Sample.token_of alg key)
      else Throw (LibraryError "algorithm must be a valid string enum value")
  | None => Throw (LibraryError "algorithm must be a valid string enum value")
  end.

Definition verify : string -> string -> Jwt.VerifyOptions -> Jwt.Outcome :=
  Sample.verify.

Definition valid (payload : JwtPayload) (key : string)
    (o : Jwt.SignOptions) : Prop :=
  payload = Sample.claims
  ∧ ∃ alg, Jwt.algorithm o = Some alg ∧ alg ∈ supported.

End Strict.

(** Options that give the success message only. *)
Definition only_success : Part000.JwtMiddlewareOptions :=
  {| Part000.message :=
       Has {| Part000.success := Has "Welcome"; Part000.error := Missing |};
     Part000.expiresIn := Missing;
     Part000.algorithms := Missing |}.

(** Options that set [algorithms] to [undefined]. *)
Definition undefined_algorithms : Part000.JwtMiddlewareOptions :=
  {| Part000.message := Missing;
     Part000.expiresIn := Missing;
     Part000.algorithms := Undef |}.

(** ** Vocabulary of the further properties *)

(** The string [s] has the code unit [c]. *)
Fixpoint has_char (c : ascii) (s : string) : bool :=
  match s with
  | EmptyString => false
  | String d ds => if Ascii.eqb d c then true else has_char c ds
  end.

(** The code units of [s] that come before its first [c]. *)
Fixpoint before (c : ascii) (s : string) : string :=
  match s with
  | EmptyString => EmptyString
  | String d ds => if Ascii.eqb d c then EmptyString else String d (before c ds)
  end.

(** The string [s] has an occurrence of [pattern]. *)
Fixpoint occurs (pattern s : string) : bool :=
  startsWith s pattern
  || match s with
     | EmptyString => false
     | String _ cs => occurs pattern cs
     end.

(** The verifier [verify] with every error it reports passed through [f]. *)
Definition relabel (f : JsError -> JsError)
    (verify : string -> string -> Jwt.VerifyOptions -> Jwt.Outcome)
  : string -> string -> Jwt.VerifyOptions -> Jwt.Outcome :=
  fun token secretKey options =>
    match verify token secretKey options with
    | Jwt.Rejected err => Jwt.Rejected (f err)
    | Jwt.Verified decoded => Jwt.Verified decoded
    end.

(** A verifier that rejects every token. *)
Definition reject_all : string -> string -> Jwt.VerifyOptions -> Jwt.Outcome :=
  fun _ _ _ => Jwt.Rejected (LibraryError "invalid token").

(** An options object of [part_000] written with the keys of [part_001]. *)
Definition to_part001_message (m : Part000.Message) : Part001.Message :=
  {| Part001.successMessage := Part000.success m;
     Part001.errorMessage := Part000.error m |}.

Definition to_part001 (o : Part000.JwtMiddlewareOptions)
  : Part001.JwtMiddlewareOptions :=
  {| Part001.message :=
       match Part000.message o with
       | Missing => Missing
       | Undef => Undef
       | Has m => Has (to_part001_message m)
       end;
     Part001.expiresIn := Part000.expiresIn o;
     Part001.algorithms := Part000.algorithms o |}.

(** What a client sees of an event: status and message of a response,
    nothing of a continuation. *)
Definition seen_by_client (e : Event) : option (nat * option string) :=
  match e with
  | Responded resp => Some (status resp, body_message resp)
  | Continued _ _ => None
  end.

(** * Properties *)

(** ** What one call of each handler does *)

Lemma Part000_run verify secretKey options r :
  run (Part000.jwtMiddleware verify secretKey options) r =
  let o := Part000.options_or_default options in
  match Part000.extractToken r with
  | None | Some EmptyString =>
      {| req := r; trace := [Responded no_token_response] |}
  | Some token =>
      match verify token secretKey
              {| Jwt.algorithms :=
                   get (Part000.algorithms (Part000.middleware_options o)) |}
      with
      | Jwt.Rejected _ =>
          {| req := r;
             trace := [Responded
                         {| status := 401; emitter := json;
                            body_message :=
                              get (Part000.error (Part000.merged_message o)) |}] |}
      | Jwt.Verified decoded =>
          {| req := set_user (Some decoded) r;
             trace := [Continued [] (set_user (Some decoded) r)] |}
      end
  end.
Proof.
  unfold run, Part000.jwtMiddleware, bind, read_req; cbn [req fst snd].
  destruct (Part000.extractToken r) as [[|c token]|]; try reflexivity.
  unfold verify_with_callback.
  destruct (verify _ _ _); reflexivity.
Qed.

Lemma Part001_run verify secretKey options r :
  run (Part001.jwtMiddleware verify secretKey options) r =
  let o := Part001.options_or_default options in
  let errorMessage := get (Part001.errorMessage (Part001.merged_message o)) in
  match headers r !! "authorization" with
  | None | Some EmptyString =>
      {| req := r; trace := [Responded unauthorized_response] |}
  | Some authorization =>
      match replace authorization "Bearer " "" with
      | EmptyString =>
          {| req := r;
             trace := [Responded {| status := 401; emitter := send;
                                    body_message := errorMessage |}] |}
      | String c t =>
          match verify (String c t) secretKey
                  {| Jwt.algorithms :=
                       get (Part001.algorithms (Part001.middleware_options o)) |}
          with
          | Jwt.Rejected _ =>
              {| req := r;
                 trace := [Responded {| status := 401; emitter := send;
                                        body_message := errorMessage |}] |}
          | Jwt.Verified _ => {| req := r; trace := [Continued [] r] |}
          end
      end
  end.
Proof.
  unfold run, Part001.jwtMiddleware, bind, read_req; cbn [req fst snd].
  destruct (headers r !! "authorization") as [[|c h]|]; try reflexivity.
  destruct (replace (String c h) "Bearer " "") as [|c' t]; try reflexivity.
  unfold verify_with_callback.
  destruct (verify _ _ _); reflexivity.
Qed.

(** C1.  Every call of the handler that [jwtMiddleware] returns, in either
    copy and for every verifier, key, options and request, has exactly one
    of the two effects: the responses emitted and the calls of [next] number
    one together. *)
Theorem C1_exactly_one_effect :
  ∀ verify secretKey r,
    (∀ options,
       let w := run (Part000.jwtMiddleware verify secretKey options) r in
       length (responses w) + length (continuations w) = 1)
    ∧ (∀ options,
         let w := run (Part001.jwtMiddleware verify secretKey options) r in
         length (responses w) + length (continuations w) = 1).
Proof.
  intros verify secretKey r; split; intros options w; subst w.
  - rewrite Part000_run; cbn zeta.
    destruct (Part000.extractToken r) as [[|c token]|]; try reflexivity.
    destruct (verify _ _ _); reflexivity.
  - rewrite Part001_run; cbn zeta.
    destruct (headers r !! "authorization") as [[|c h]|]; try reflexivity.
    destruct (replace _ _ _); try reflexivity.
    destruct (verify _ _ _); reflexivity.
Qed.

(** ** The string operations on concrete inputs *)

Example startsWith_is_case_sensitive :
  startsWith "Bearer abc" "Bearer " = true
  ∧ startsWith "bearer abc" "Bearer " = false
  ∧ startsWith "Bearer" "Bearer " = false.
Proof. repeat split. Qed.

Example substring_past_the_end :
  substring 7 "Bearer abc" = "abc" ∧ substring 7 "Bearer " = "" ∧ substring 7 "abc" = "".
Proof. repeat split. Qed.

Example replace_first_occurrence_only :
  replace "Bearer abc" "Bearer " "" = "abc"
  ∧ replace "xBearer Bearer y" "Bearer " "" = "xBearer y"
  ∧ replace "Basic abc123" "Bearer " "" = "Basic abc123".
Proof. repeat split. Qed.

Example split_keeps_empty_pieces :
  split "Bearer abc" " " = ["Bearer"; "abc"]
  ∧ split "a  b" " " = ["a"; ""; "b"]
  ∧ split "" " " = [""].
Proof. repeat split. Qed.

(** The specification's wrong-scheme scenario on [part_000]. *)
Example Part000_basic_scheme verify :
  trace (run (Part000.jwtMiddleware verify "s3cret" None)
           (Sample.request (Some "Basic abc123")))
  = [Responded no_token_response].
Proof. rewrite Part000_run; reflexivity. Qed.

(** ** Extraction *)

Lemma Part000_extractToken_no_header r :
  headers r !! "authorization" = None → Part000.extractToken r = None.
Proof. unfold Part000.extractToken; intros ->; reflexivity. Qed.

Lemma Part000_extractToken_wrong_prefix r h :
  headers r !! "authorization" = Some h →
  startsWith h "Bearer " = false →
  Part000.extractToken r = None.
Proof. unfold Part000.extractToken; intros -> ->; reflexivity. Qed.

Lemma Part000_extractToken_bearer r h :
  headers r !! "authorization" = Some h →
  startsWith h "Bearer " = true →
  Part000.extractToken r = Some (substring 7 h).
Proof. unfold Part000.extractToken; intros -> ->; reflexivity. Qed.

Lemma startsWith_app p s : startsWith (p ++ s) p = true.
Proof.
  induction p as [|c p IH]; [reflexivity|].
  change (startsWith (String c p ++ s) (String c p))
    with (if Ascii.eqb c c then startsWith (p ++ s) p else false).
  rewrite Ascii.eqb_refl; exact IH.
Qed.

Lemma substring_app p s : substring (String.length p) (p ++ s) = s.
Proof. induction p as [|c p IH]; cbn; [reflexivity | exact IH]. Qed.

(** A header ["Bearer " ++ token] yields [token]: the token travels
    unchanged. *)
Lemma Part000_extractToken_of_bearer r token :
  headers r !! "authorization" = Some ("Bearer " ++ token) →
  Part000.extractToken r = Some token.
Proof.
  intros H.
  rewrite (Part000_extractToken_bearer r _ H (startsWith_app "Bearer " token)).
  f_equal; exact (substring_app "Bearer " token).
Qed.

(** C3.  A request without an [authorization] header gets, from either
    copy, one response of status 401 and nothing else: [next] is not
    called. *)
Theorem C3_missing_header_is_401 :
  ∀ verify secretKey r,
    headers r !! "authorization" = None →
    (∀ options,
       let w := run (Part000.jwtMiddleware verify secretKey options) r in
       trace w = [Responded no_token_response]
       ∧ status no_token_response = 401
       ∧ continuations w = [])
    ∧ (∀ options,
         let w := run (Part001.jwtMiddleware verify secretKey options) r in
         trace w = [Responded unauthorized_response]
         ∧ status unauthorized_response = 401
         ∧ continuations w = []).
Proof.
  intros verify secretKey r Hnone; split; intros options w; subst w.
  - rewrite Part000_run, (Part000_extractToken_no_header r Hnone).
    repeat split.
  - rewrite Part001_run, Hnone.
    repeat split.
Qed.

Lemma C3_missing_header_is_401_witness :
  headers (Sample.request None) !! "authorization" = None
  ∧ trace (run (Part000.jwtMiddleware Sample.accept "s3cret" None)
             (Sample.request None))
    = [Responded no_token_response]
  ∧ trace (run (Part001.jwtMiddleware Sample.accept "s3cret" None)
             (Sample.request None))
    = [Responded unauthorized_response].
Proof.
  assert (H : headers (Sample.request None) !! "authorization" = None)
    by reflexivity.
  split; [exact H|].
  destruct (C3_missing_header_is_401 Sample.accept "s3cret"
              (Sample.request None) H) as [H0 H1].
  split; [exact (proj1 (H0 None)) | exact (proj1 (H1 None))].
Defined.

(** ** The success path *)

(** In [part_000] a verified token puts the decoded claims in [req.user]
    and then calls [next()], which finds them there. *)
Lemma Part000_success_attaches_identity verify secretKey options r token decoded :
  Part000.extractToken r = Some token →
  token ≠ "" →
  verify token secretKey
    {| Jwt.algorithms :=
         get (Part000.algorithms
                (Part000.middleware_options
                   (Part000.options_or_default options))) |}
    = Jwt.Verified decoded →
  run (Part000.jwtMiddleware verify secretKey options) r
  = {| req := set_user (Some decoded) r;
       trace := [Continued [] (set_user (Some decoded) r)] |}.
Proof.
  intros Htok Hne Hver.
  rewrite Part000_run, Htok; cbn zeta.
  destruct token as [|c t]; [congruence|].
  rewrite Hver; reflexivity.
Qed.

(** Neither copy passes an argument to [next]. *)
Lemma next_without_arguments verify secretKey r args seen :
  (∀ options,
     Continued args seen
       ∈ trace (run (Part000.jwtMiddleware verify secretKey options) r) →
     args = [])
  ∧ (∀ options,
       Continued args seen
         ∈ trace (run (Part001.jwtMiddleware verify secretKey options) r) →
       args = []).
Proof.
  split; intros options.
  - rewrite Part000_run; cbn zeta.
    destruct (Part000.extractToken r) as [[|c token]|];
      try destruct (verify _ _ _);
      cbn [trace]; intros H; apply list_elem_of_singleton in H; congruence.
  - rewrite Part001_run; cbn zeta.
    destruct (headers r !! "authorization") as [[|c h]|];
      try destruct (replace _ _ _);
      try destruct (verify _ _ _);
      cbn [trace]; intros H; apply list_elem_of_singleton in H; congruence.
Qed.

(** The handler of [part_001] never writes the request. *)
Lemma Part001_request_untouched verify secretKey options r :
  req (run (Part001.jwtMiddleware verify secretKey options) r) = r.
Proof.
  rewrite Part001_run; cbn zeta.
  destruct (headers r !! "authorization") as [[|c h]|];
    try destruct (replace _ _ _);
    try destruct (verify _ _ _); reflexivity.
Qed.

(** C2.  The copy in [part_001] on a request whose token the verifier
    accepts: [next()] is called, without arguments, but the identity slot is
    still empty; the decoded claims are dropped.  (The copy in [part_000]
    attaches them: [Part000_success_attaches_identity].) *)
Theorem C2_part001_drops_decoded_claims :
  ∀ secretKey options,
    let r := Sample.request (Some "Bearer abc") in
    let w := run (Part001.jwtMiddleware Sample.accept secretKey options) r in
    Sample.accept "abc" secretKey
      {| Jwt.algorithms :=
           get (Part001.algorithms
                  (Part001.middleware_options
                     (Part001.options_or_default options))) |}
      = Jwt.Verified Sample.decoded_claims
    ∧ trace w = [Continued [] r]
    ∧ user (req w) = None
    ∧ user (req w) ≠ Some Sample.decoded_claims.
Proof.
  intros secretKey options r w; subst w.
  rewrite Part001_run.
  repeat split.
  discriminate.
Qed.

(** ** Headers that carry no bearer token *)

(** In [part_000] a header without the prefix ["Bearer "] is no token: the
    request is answered as one without the header is. *)
Lemma Part000_wrong_prefix_as_missing verify secretKey options r h :
  headers r !! "authorization" = Some h →
  startsWith h "Bearer " = false →
  Part000.extractToken r = None
  ∧ run (Part000.jwtMiddleware verify secretKey options) r
    = {| req := r; trace := [Responded no_token_response] |}.
Proof.
  intros Hh Hp.
  pose proof (Part000_extractToken_wrong_prefix r h Hh Hp) as Hx.
  split; [exact Hx|].
  rewrite Part000_run, Hx; reflexivity.
Qed.

(** In [part_000] the header ["Bearer "], with nothing after the prefix, is
    answered with the fixed response; neither the verifier nor the
    configured error message is looked at. *)
Lemma Part000_empty_bearer_as_missing verify secretKey options r :
  headers r !! "authorization" = Some "Bearer " →
  run (Part000.jwtMiddleware verify secretKey options) r
  = {| req := r; trace := [Responded no_token_response] |}.
Proof.
  intros Hh.
  rewrite Part000_run, (Part000_extractToken_of_bearer r "" Hh); reflexivity.
Qed.

(** C4.  The copy in [part_001] on the header ["Basic abc123"], which does
    not start with ["Bearer "]: [extractToken] yields ["abc123"], not the
    absence marker, and the handler hands the whole header to the verifier;
    the request is answered with the configured error message or passed on,
    never with the response of the missing-header case.  (The copy in
    [part_000] does what the claim says:
    [Part000_wrong_prefix_as_missing].) *)
Theorem C4_part001_wrong_scheme_reaches_verifier :
  ∀ verify secretKey,
    let r := Sample.request (Some "Basic abc123") in
    let w := run (Part001.jwtMiddleware verify secretKey None) r in
    startsWith "Basic abc123" "Bearer " = false
    ∧ Part001.extractToken r = "abc123"
    ∧ w = match verify "Basic abc123" secretKey
                  {| Jwt.algorithms := Some ["HS256"] |} with
          | Jwt.Rejected _ =>
              {| req := r;
                 trace := [Responded {| status := 401; emitter := send;
                                        body_message := Some "Invalid token" |}] |}
          | Jwt.Verified _ => {| req := r; trace := [Continued [] r] |}
          end
    ∧ trace w ≠ [Responded unauthorized_response].
Proof.
  intros verify secretKey r w; subst w.
  rewrite Part001_run.
  change (headers r !! "authorization") with (Some "Basic abc123").
  cbn.
  destruct (verify _ _ _); repeat split; discriminate.
Qed.

(** C5.  The copy in [part_001] on the header ["Bearer "]: the verifier is
    not called, but the response carries the configured error message (the
    default one, or the caller's), sent as the invalid-token response is,
    and not the fixed message of the missing-header case.  (The copy in
    [part_000] does what the claim says:
    [Part000_empty_bearer_as_missing].) *)
Theorem C5_part001_empty_bearer_uses_error_message :
  ∀ verify secretKey,
    let r := Sample.request (Some "Bearer ") in
    run (Part001.jwtMiddleware verify secretKey None) r
    = {| req := r;
         trace := [Responded {| status := 401; emitter := send;
                                body_message := Some "Invalid token" |}] |}
    ∧ (∀ e : string,
         let options :=
           {| Part001.message :=
                Has {| Part001.successMessage := Missing;
                       Part001.errorMessage := Has e |};
              Part001.expiresIn := Missing;
              Part001.algorithms := Missing |} in
         run (Part001.jwtMiddleware verify secretKey (Some options)) r
         = {| req := r;
              trace := [Responded {| status := 401; emitter := send;
                                     body_message := Some e |}] |})
    ∧ trace (run (Part001.jwtMiddleware verify secretKey None)
               (Sample.request None))
      = [Responded unauthorized_response].
Proof.
  intros verify secretKey r.
  split; [|split].
  - rewrite Part001_run; reflexivity.
  - intros e options; rewrite Part001_run; reflexivity.
  - rewrite Part001_run; reflexivity.
Qed.

(** ** Configuration *)

(** The [message] that the handlers read is the [message] key of the object
    they destructure. *)
Lemma Part000_message_key o :
  Part000.message (Part000.middleware_options o)
  = Has (Part000.merged_message o).
Proof. reflexivity. Qed.

Lemma Part001_message_key o :
  Part001.message (Part001.middleware_options o)
  = Has (Part001.merged_message o).
Proof. reflexivity. Qed.

(** What the two literals hold for options without an explicit
    [undefined]. *)
Lemma Part000_plain_middleware options :
  plain000 options = true →
  let c := DataModel.merge DataModel.defaults (given000 options) in
  let o := Part000.options_or_default options in
  Part000.merged_message o
  = {| Part000.success := Has (DataModel.successText c);
       Part000.error := Has (DataModel.errorText c) |}
  ∧ get (Part000.algorithms (Part000.middleware_options o))
    = Some (DataModel.allowedAlgorithms c).
Proof.
  destruct options as [[[| |[s e]] x a]|]; cbn;
    try destruct s; try destruct e; try destruct x; try destruct a;
    try discriminate; intros _; split; reflexivity.
Qed.

Lemma Part001_plain_middleware options :
  plain001 options = true →
  let c := DataModel.merge DataModel.defaults (given001 options) in
  let o := Part001.options_or_default options in
  Part001.merged_message o
  = {| Part001.successMessage := Has (DataModel.successText c);
       Part001.errorMessage := Has (DataModel.errorText c) |}
  ∧ get (Part001.algorithms (Part001.middleware_options o))
    = Some (DataModel.allowedAlgorithms c).
Proof.
  destruct options as [[[| |[s e]] x a]|]; cbn;
    try destruct s; try destruct e; try destruct x; try destruct a;
    try discriminate; intros _; split; reflexivity.
Qed.

Lemma Part000_plain_gate verify secretKey r options :
  plain000 options = true →
  run (Part000.jwtMiddleware verify secretKey options) r
  = DataModel.gate no_token_response json (λ d, set_user (Some d))
      (DataModel.merge DataModel.defaults (given000 options))
      verify secretKey (token000 r) r.
Proof.
  intros Hp; destruct (Part000_plain_middleware options Hp) as [Hm Ha].
  cbn zeta in Hm, Ha.
  rewrite Part000_run; cbn zeta; rewrite Hm, Ha.
  unfold token000, DataModel.gate.
  destruct (Part000.extractToken r) as [[|ch token]|]; reflexivity.
Qed.

Lemma Part001_plain_gate verify secretKey r options :
  plain001 options = true →
  let c := DataModel.merge DataModel.defaults (given001 options) in
  run (Part001.jwtMiddleware verify secretKey options) r
  = match headers r !! "authorization" with
    | None | Some EmptyString =>
        DataModel.gate unauthorized_response send (λ _ q, q) c
          verify secretKey None r
    | Some h =>
        match replace h "Bearer " "" with
        | EmptyString =>
            {| req := r;
               trace := [Responded
                           {| status := 401; emitter := send;
                              body_message := Some (DataModel.errorText c) |}] |}
        | String ch t =>
            DataModel.gate unauthorized_response send (λ _ q, q) c
              verify secretKey (Some (String ch t)) r
        end
    end.
Proof.
  intros Hp; destruct (Part001_plain_middleware options Hp) as [Hm Ha].
  cbn zeta in Hm, Ha |- *.
  rewrite Part001_run; cbn zeta; rewrite Hm, Ha.
  unfold DataModel.gate.
  destruct (headers r !! "authorization") as [[|ch h]|]; reflexivity.
Qed.

Lemma Part000_plain_issue sign payload secretKey options :
  plain000 options = true →
  Part000.generateToken sign payload secretKey options
  = DataModel.issue (DataModel.merge DataModel.defaults (given000 options))
      sign payload secretKey.
Proof.
  destruct options as [[m x a]|]; [|reflexivity].
  destruct m as [| |[s e]]; destruct x, a; try discriminate;
    cbn; try destruct s; try destruct e; try discriminate; reflexivity.
Qed.

Lemma Part001_plain_issue sign payload secretKey options :
  plain001 options = true →
  Part001.generateToken sign payload secretKey options
  = DataModel.issue (DataModel.merge DataModel.defaults (given001 options))
      sign payload secretKey.
Proof.
  destruct options as [[m x a]|]; [|reflexivity].
  destruct m as [| |[s e]]; destruct x, a; try discriminate;
    cbn; try destruct s; try destruct e; try discriminate; reflexivity.
Qed.

(** C7, as stated, fails for [generateToken]: its object literal merges the
    top-level keys only, so a caller who gives the success message alone
    gets a message object without the default error message, where the
    field-by-field merge keeps it. *)
Lemma C7_generateToken_replaces_message_pair :
  Part000.message (Part000.token_options only_success)
  = Has {| Part000.success := Has "Welcome"; Part000.error := Missing |}
  ∧ errorText (Part000.configuration_of (Part000.token_options only_success))
    = None
  ∧ DataModel.errorText
      (DataModel.merge DataModel.defaults (given000 (Some only_success)))
    = "Invalid token"
  ∧ errorText (Part000.configuration_of (Part000.token_options only_success))
    ≠ Some (DataModel.errorText
              (DataModel.merge DataModel.defaults
                 (given000 (Some only_success)))).
Proof. repeat split; discriminate. Qed.

(** C7, amended.  For options in which every setting is left out or given a
    value, in both copies: the message object that [jwtMiddleware] builds
    holds the two messages of the field-by-field merge of the caller's
    settings over the defaults (so one message given alone keeps the default
    of the other); the handler behaves as the gate under that merged
    configuration; and [generateToken] signs with the expiry and the first
    algorithm of that merged configuration.  The literal of [generateToken]
    takes a message object that the caller gives as it is. *)
Theorem C7_merged_configuration_drives_both_functions :
  (∀ options,
     plain000 options = true →
     let c := DataModel.merge DataModel.defaults (given000 options) in
     Part000.merged_message (Part000.options_or_default options)
     = {| Part000.success := Has (DataModel.successText c);
          Part000.error := Has (DataModel.errorText c) |}
     ∧ (∀ verify secretKey r,
          run (Part000.jwtMiddleware verify secretKey options) r
          = DataModel.gate no_token_response json (λ d, set_user (Some d)) c
              verify secretKey (token000 r) r)
     ∧ (∀ sign payload secretKey,
          Part000.generateToken sign payload secretKey options
          = DataModel.issue c sign payload secretKey))
  ∧ (∀ options,
       plain001 options = true →
       let c := DataModel.merge DataModel.defaults (given001 options) in
       Part001.merged_message (Part001.options_or_default options)
       = {| Part001.successMessage := Has (DataModel.successText c);
            Part001.errorMessage := Has (DataModel.errorText c) |}
       ∧ (∀ verify secretKey r,
            run (Part001.jwtMiddleware verify secretKey options) r
            = match headers r !! "authorization" with
              | None | Some EmptyString =>
                  DataModel.gate unauthorized_response send (λ _ q, q) c
                    verify secretKey None r
              | Some h =>
                  match replace h "Bearer " "" with
                  | EmptyString =>
                      {| req := r;
                         trace :=
                           [Responded
                              {| status := 401; emitter := send;
                                 body_message :=
                                   Some (DataModel.errorText c) |}] |}
                  | String ch t =>
                      DataModel.gate unauthorized_response send (λ _ q, q) c
                        verify secretKey (Some (String ch t)) r
                  end
              end)
       ∧ (∀ sign payload secretKey,
            Part001.generateToken sign payload secretKey options
            = DataModel.issue c sign payload secretKey))
  ∧ (∀ (s : string) x a,
       DataModel.merge DataModel.defaults
         (given000
            (Some {| Part000.message :=
                       Has {| Part000.success := Has s;
                              Part000.error := Missing |};
                     Part000.expiresIn := x; Part000.algorithms := a |}))
       = {| DataModel.successText := s;
            DataModel.errorText := "Invalid token";
            DataModel.expiry := default "1h" (get x);
            DataModel.allowedAlgorithms := default ["HS256"] (get a) |}
       ∧ DataModel.merge DataModel.defaults
           (given000
              (Some {| Part000.message :=
                         Has {| Part000.success := Missing;
                                Part000.error := Has s |};
                       Part000.expiresIn := x; Part000.algorithms := a |}))
         = {| DataModel.successText := "Token is valid";
              DataModel.errorText := s;
              DataModel.expiry := default "1h" (get x);
              DataModel.allowedAlgorithms := default ["HS256"] (get a) |})
  ∧ (∀ o m,
       Part000.message o = Has m →
       Part000.message (Part000.token_options o) = Has m)
  ∧ (∀ o m,
       Part001.message o = Has m →
       Part001.message (Part001.token_options o) = Has m).
Proof.
  split; [|split; [|split; [|split]]].
  - intros options Hp c; subst c.
    split; [exact (proj1 (Part000_plain_middleware options Hp))|].
    split; intros.
    + now apply Part000_plain_gate.
    + now apply Part000_plain_issue.
  - intros options Hp c; subst c.
    split; [exact (proj1 (Part001_plain_middleware options Hp))|].
    split; intros.
    + now apply Part001_plain_gate.
    + now apply Part001_plain_issue.
  - intros s x a; split; reflexivity.
  - intros [m' x a] m; cbn; now intros ->.
  - intros [m' x a] m; cbn; now intros ->.
Qed.

Lemma C7_merged_configuration_drives_both_functions_witness :
  plain000 (Some only_success) = true
  ∧ Part000.merged_message (Part000.options_or_default (Some only_success))
    = {| Part000.success := Has "Welcome";
         Part000.error := Has "Invalid token" |}
  ∧ run (Part000.jwtMiddleware reject_all "s3cret" (Some only_success))
        (Sample.request (Some "Bearer abc"))
    = {| req := Sample.request (Some "Bearer abc");
         trace := [Responded {| status := 401; emitter := json;
                                body_message := Some "Invalid token" |}] |}
  ∧ Part000.generateToken Sample.sign Sample.claims "s3cret" (Some only_success)
    = Sample.sign Sample.claims "s3cret"
        {| Jwt.expiresIn := Some "1h"; Jwt.algorithm := Some "HS256" |}.
Proof.
  assert (Hp : plain000 (Some only_success) = true) by reflexivity.
  destruct (proj1 C7_merged_configuration_drives_both_functions
              (Some only_success) Hp) as (Hm & Hg & Hi).
  split; [exact Hp|].
  split; [exact Hm|].
  split.
  - rewrite (Hg reject_all "s3cret" (Sample.request (Some "Bearer abc"))).
    reflexivity.
  - rewrite (Hi Sample.sign Sample.claims "s3cret"); reflexivity.
Defined.

(** ** Issuing tokens *)

Lemma Part000_generateToken_list sign payload secretKey options algs :
  get (Part000.algorithms
         (Part000.token_options (Part000.options_or_default options)))
    = Some algs →
  Part000.generateToken sign payload secretKey options
  = sign payload secretKey
      {| Jwt.expiresIn :=
           get (Part000.expiresIn
                  (Part000.token_options (Part000.options_or_default options)));
         Jwt.algorithm := algs !! 0%nat |}.
Proof. unfold Part000.generateToken; intros ->; reflexivity. Qed.

Lemma Part001_generateToken_list sign payload secretKey options algs :
  get (Part001.algorithms
         (Part001.token_options (Part001.options_or_default options)))
    = Some algs →
  Part001.generateToken sign payload secretKey options
  = sign payload secretKey
      {| Jwt.expiresIn :=
           get (Part001.expiresIn
                  (Part001.token_options (Part001.options_or_default options)));
         Jwt.algorithm := algs !! 0%nat |}.
Proof. unfold Part001.generateToken; intros ->; reflexivity. Qed.

(** C8.  [generateToken] on options that set [algorithms] to [undefined]:
    the spread puts the [undefined] over the default list, reading element 0
    of it throws a [TypeError], and the signing primitive is not called,
    whatever it is; with the same key left out the call signs with the
    default algorithm, as the claim says of every input. *)
Theorem C8_undefined_algorithms_never_reach_sign :
  ∀ sign payload secretKey,
    Part000.generateToken sign payload secretKey (Some undefined_algorithms)
    = Throw (TypeError "Cannot read properties of undefined (reading '0')")
    ∧ (∀ m x,
         Part000.generateToken sign payload secretKey
           (Some {| Part000.message := m; Part000.expiresIn := x;
                    Part000.algorithms := Undef |})
         = Throw (TypeError "Cannot read properties of undefined (reading '0')"))
    ∧ (∀ m x,
         Part001.generateToken sign payload secretKey
           (Some {| Part001.message := m; Part001.expiresIn := x;
                    Part001.algorithms := Undef |})
         = Throw (TypeError "Cannot read properties of undefined (reading '0')"))
    ∧ Part000.generateToken sign payload secretKey
        (Some {| Part000.message := Missing; Part000.expiresIn := Missing;
                 Part000.algorithms := Missing |})
      = sign payload secretKey
          {| Jwt.expiresIn := Some "1h"; Jwt.algorithm := Some "HS256" |}.
Proof.
  intros sign payload secretKey.
  split; [reflexivity|].
  split; [intros m x; reflexivity|].
  split; [intros m x; reflexivity | reflexivity].
Qed.

(** C9, as stated, fails: a caller-supplied empty list is kept by the merge,
    in both the gate's and the issuer's configuration, and has no first
    element. *)
Lemma C9_empty_list_survives_merge :
  get (Part000.algorithms
         (Part000.token_options
            (Part000.options_or_default (Some Sample.no_algorithms))))
    = Some []
  ∧ get (Part000.algorithms
           (Part000.middleware_options
              (Part000.options_or_default (Some Sample.no_algorithms))))
      = Some []
  ∧ ¬ (∃ alg rest,
         get (Part000.algorithms
                (Part000.token_options
                   (Part000.options_or_default (Some Sample.no_algorithms))))
         = Some (alg :: rest))
  ∧ Part000.generateToken Sample.sign Sample.claims "s3cret"
      (Some Sample.no_algorithms)
    = Sample.sign Sample.claims "s3cret"
        {| Jwt.expiresIn := Some "1h"; Jwt.algorithm := None |}.
Proof.
  repeat split.
  intros (alg & rest & H); discriminate H.
Qed.

(** C9, amended.  When the caller leaves [algorithms] out or supplies a
    list with a first element, the merged list of the gate and of the issuer,
    in both copies, has a first element; a list that the caller supplies is
    merged in as it is, whatever its length. *)
Theorem C9_merged_algorithms_nonempty :
  (∀ options,
     omitted_or_nonempty
       (Part000.algorithms (Part000.options_or_default options)) →
     ∃ alg rest,
       get (Part000.algorithms
              (Part000.middleware_options (Part000.options_or_default options)))
         = Some (alg :: rest)
       ∧ get (Part000.algorithms
                (Part000.token_options (Part000.options_or_default options)))
         = Some (alg :: rest)
       ∧ (alg :: rest) !! 0%nat = Some alg)
  ∧ (∀ options,
       omitted_or_nonempty
         (Part001.algorithms (Part001.options_or_default options)) →
       ∃ alg rest,
         get (Part001.algorithms
                (Part001.middleware_options (Part001.options_or_default options)))
           = Some (alg :: rest)
         ∧ get (Part001.algorithms
                  (Part001.token_options (Part001.options_or_default options)))
           = Some (alg :: rest)
         ∧ (alg :: rest) !! 0%nat = Some alg)
  ∧ (∀ m x l,
       let o := {| Part000.message := m; Part000.expiresIn := x;
                   Part000.algorithms := Has l |} in
       get (Part000.algorithms (Part000.middleware_options o)) = Some l
       ∧ get (Part000.algorithms (Part000.token_options o)) = Some l)
  ∧ (∀ m x l,
       let o := {| Part001.message := m; Part001.expiresIn := x;
                   Part001.algorithms := Has l |} in
       get (Part001.algorithms (Part001.middleware_options o)) = Some l
       ∧ get (Part001.algorithms (Part001.token_options o)) = Some l).
Proof.
  split; [|split; [|split; intros m x l; split; reflexivity]];
    intros options [Hm | (alg & rest & Hh)].
  - exists "HS256", []; cbn; rewrite Hm; repeat split.
  - exists alg, rest; cbn; rewrite Hh; repeat split.
  - exists "HS256", []; cbn; rewrite Hm; repeat split.
  - exists alg, rest; cbn; rewrite Hh; repeat split.
Qed.

Lemma C9_merged_algorithms_nonempty_witness :
  ∃ alg rest,
    get (Part000.algorithms
           (Part000.middleware_options (Part000.options_or_default None)))
      = Some (alg :: rest)
    ∧ get (Part000.algorithms
             (Part000.token_options (Part000.options_or_default None)))
      = Some (alg :: rest)
    ∧ (alg :: rest) !! 0%nat = Some alg.
Proof.
  apply (proj1 C9_merged_algorithms_nonempty None).
  left; reflexivity.
Defined.

(** ** The success message *)

(** C10.  Two calls whose configurations differ in the success message
    only are indistinguishable: in both copies the handler leaves the same
    request and the same trace of responses and continuations behind on
    every request, and [generateToken] returns the same result on every
    payload. *)
Theorem C10_success_message_is_dead :
  ∀ verify sign secretKey payload r,
    (∀ o1 o2,
       Spec.differ_only_in_success
         (Part000.configuration_of
            (Part000.middleware_options (Part000.options_or_default o1)))
         (Part000.configuration_of
            (Part000.middleware_options (Part000.options_or_default o2))) →
       run (Part000.jwtMiddleware verify secretKey o1) r
       = run (Part000.jwtMiddleware verify secretKey o2) r
       ∧ Part000.generateToken sign payload secretKey o1
         = Part000.generateToken sign payload secretKey o2)
    ∧ (∀ o1 o2,
         Spec.differ_only_in_success
           (Part001.configuration_of
              (Part001.middleware_options (Part001.options_or_default o1)))
           (Part001.configuration_of
              (Part001.middleware_options (Part001.options_or_default o2))) →
         run (Part001.jwtMiddleware verify secretKey o1) r
         = run (Part001.jwtMiddleware verify secretKey o2) r
         ∧ Part001.generateToken sign payload secretKey o1
           = Part001.generateToken sign payload secretKey o2).
Proof.
  intros verify sign secretKey payload r; split; intros o1 o2 (He & Hx & Ha).
  - cbn [Part000.configuration_of errorText expiry allowedAlgorithms
         Part000.middleware_options Part000.with_message
         Part000.message Part000.expiresIn Part000.algorithms
         get mbind option_bind] in He, Hx, Ha.
    split.
    + rewrite !Part000_run; cbn zeta.
      cbn [Part000.middleware_options Part000.with_message Part000.algorithms].
      rewrite He, Ha; reflexivity.
    + unfold Part000.generateToken, Part000.token_options.
      rewrite Hx, Ha; reflexivity.
  - cbn [Part001.configuration_of errorText expiry allowedAlgorithms
         Part001.middleware_options Part001.with_message
         Part001.message Part001.expiresIn Part001.algorithms
         get mbind option_bind] in He, Hx, Ha.
    split.
    + rewrite !Part001_run; cbn zeta.
      cbn [Part001.middleware_options Part001.with_message Part001.algorithms].
      rewrite He, Ha; reflexivity.
    + unfold Part001.generateToken, Part001.token_options.
      rewrite Hx, Ha; reflexivity.
Qed.

Lemma C10_success_message_is_dead_witness :
  Spec.differ_only_in_success
    (Part000.configuration_of
       (Part000.middleware_options
          (Part000.options_or_default (Some Sample.plain_success))))
    (Part000.configuration_of
       (Part000.middleware_options
          (Part000.options_or_default (Some Sample.custom_success))))
  ∧ run (Part000.jwtMiddleware Sample.verify "s3cret" (Some Sample.plain_success))
        (Sample.request (Some "Bearer HS256.s3cret"))
    = run (Part000.jwtMiddleware Sample.verify "s3cret" (Some Sample.custom_success))
        (Sample.request (Some "Bearer HS256.s3cret"))
  ∧ Part000.generateToken Sample.sign Sample.claims "s3cret"
      (Some Sample.plain_success)
    = Part000.generateToken Sample.sign Sample.claims "s3cret"
        (Some Sample.custom_success).
Proof.
  assert (H : Spec.differ_only_in_success
                (Part000.configuration_of
                   (Part000.middleware_options
                      (Part000.options_or_default (Some Sample.plain_success))))
                (Part000.configuration_of
                   (Part000.middleware_options
                      (Part000.options_or_default (Some Sample.custom_success)))))
    by (repeat split).
  split; [exact H|].
  exact (proj1 (C10_success_message_is_dead Sample.verify Sample.sign "s3cret"
                  Sample.claims (Sample.request (Some "Bearer HS256.s3cret")))
           (Some Sample.plain_success) (Some Sample.custom_success) H).
Defined.

(** ** Issuing, then verifying *)

Lemma Strict_round_trip :
  DataModel.round_trip Strict.sign Strict.verify Strict.valid.
Proof.
  intros payload key options alg algs (Hp & alg' & Ha & Hs) Halg Hin.
  assert (alg' = alg) as -> by congruence.
  exists (Sample.token_of alg key), Sample.decoded_claims.
  split; [|split; [|split]].
  - unfold Strict.sign; rewrite Halg.
    now rewrite (bool_decide_eq_true_2 _ Hs).
  - unfold Sample.token_of.
    destruct alg; [discriminate | intros H; discriminate H].
  - unfold Strict.verify, Sample.verify; cbn [Jwt.algorithms].
    assert (existsb (λ a, String.eqb (Sample.token_of alg key)
                            (Sample.token_of a key)) algs = true) as ->.
    { apply existsb_exists; exists alg; split.
      - apply list_elem_of_In, Hin.
      - apply String.eqb_refl. }
    reflexivity.
  - subst payload; intros k Hk.
    unfold Sample.decoded_claims, Sample.claims.
    destruct (decide (k = "userId")) as [->|Hne].
    + rewrite lookup_insert_eq, lookup_singleton_eq; reflexivity.
    + assert (k ≠ "iat" ∧ k ≠ "exp") as [Hi He].
      { unfold injected_claims in Hk; clear -Hk.
        split; intros ->; apply Hk; set_solver. }
      rewrite !lookup_insert_ne, lookup_empty, lookup_singleton_ne by congruence.
      reflexivity.
Qed.

Section RoundTrip.

Variable sign :
  JwtPayload -> string -> Jwt.SignOptions -> Result JsError string.
Variable verify : string -> string -> Jwt.VerifyOptions -> Jwt.Outcome.
Variable valid : JwtPayload -> string -> Jwt.SignOptions -> Prop.
Hypothesis library : DataModel.round_trip sign verify valid.

(** C6.  For signing and verifying primitives that keep their round trip
    on valid signing inputs, and for issuing and gating options without an
    explicit [undefined]: when the first algorithm of the issuer's merged
    configuration is among the algorithms of the gate's merged configuration
    and the payload, the key, the issuer's merged expiry and that algorithm
    are a valid signing input, [generateToken] returns a token whose
    verification with the same key and the gate's algorithms succeeds with
    the payload's claims, up to the injected ones, and the gate built from
    the gating options lets a request carrying that token as its bearer
    through: with exactly these claims in [req.user] in [part_000], with the
    request as it came in [part_001]. *)
Theorem C6_issued_token_passes_the_gate :
  ∀ payload secretKey alg,
    (∀ issuing gating,
       plain000 issuing = true →
       plain000 gating = true →
       let ci := DataModel.merge DataModel.defaults (given000 issuing) in
       let cg := DataModel.merge DataModel.defaults (given000 gating) in
       DataModel.allowedAlgorithms ci !! 0%nat = Some alg →
       alg ∈ DataModel.allowedAlgorithms cg →
       valid payload secretKey
         {| Jwt.expiresIn := Some (DataModel.expiry ci);
            Jwt.algorithm := Some alg |} →
       ∃ token decoded,
         Part000.generateToken sign payload secretKey issuing = Return token
         ∧ verify token secretKey
             {| Jwt.algorithms := Some (DataModel.allowedAlgorithms cg) |}
           = Jwt.Verified decoded
         ∧ same_claims payload decoded
         ∧ (∀ r,
              headers r !! "authorization" = Some ("Bearer " ++ token) →
              run (Part000.jwtMiddleware verify secretKey gating) r
              = {| req := set_user (Some decoded) r;
                   trace := [Continued [] (set_user (Some decoded) r)] |}))
    ∧ (∀ issuing gating,
         plain001 issuing = true →
         plain001 gating = true →
         let ci := DataModel.merge DataModel.defaults (given001 issuing) in
         let cg := DataModel.merge DataModel.defaults (given001 gating) in
         DataModel.allowedAlgorithms ci !! 0%nat = Some alg →
         alg ∈ DataModel.allowedAlgorithms cg →
         valid payload secretKey
           {| Jwt.expiresIn := Some (DataModel.expiry ci);
              Jwt.algorithm := Some alg |} →
         ∃ token decoded,
           Part001.generateToken sign payload secretKey issuing = Return token
           ∧ verify token secretKey
               {| Jwt.algorithms := Some (DataModel.allowedAlgorithms cg) |}
             = Jwt.Verified decoded
           ∧ same_claims payload decoded
           ∧ (∀ r,
                headers r !! "authorization" = Some ("Bearer " ++ token) →
                run (Part001.jwtMiddleware verify secretKey gating) r
                = {| req := r; trace := [Continued [] r] |})).
Proof.
  intros payload secretKey alg; split;
    intros issuing gating Hpi Hpg ci cg Hfirst Hin Hvalid.
  - destruct (library payload secretKey _ alg (DataModel.allowedAlgorithms cg)
                Hvalid eq_refl Hin)
      as (token & decoded & Hsign & Hne & Hverify & Hsame).
    exists token, decoded.
    rewrite (Part000_plain_issue sign payload secretKey issuing Hpi).
    unfold DataModel.issue; fold ci; rewrite Hfirst.
    repeat split; try assumption.
    intros r Hh.
    rewrite (Part000_plain_gate verify secretKey r gating Hpg); fold cg.
    unfold token000; rewrite (Part000_extractToken_of_bearer r token Hh).
    destruct token as [|ch t]; [congruence|].
    unfold DataModel.gate; now rewrite Hverify.
  - destruct (library payload secretKey _ alg (DataModel.allowedAlgorithms cg)
                Hvalid eq_refl Hin)
      as (token & decoded & Hsign & Hne & Hverify & Hsame).
    exists token, decoded.
    rewrite (Part001_plain_issue sign payload secretKey issuing Hpi).
    unfold DataModel.issue; fold ci; rewrite Hfirst.
    repeat split; try assumption.
    intros r Hh.
    rewrite (Part001_plain_gate verify secretKey r gating Hpg); fold cg.
    rewrite Hh.
    destruct token as [|ch t]; [congruence|].
    change ("Bearer " ++ String ch t)
      with (String "B" ("earer " ++ String ch t)).
    cbn iota.
    change (replace (String "B" ("earer " ++ String ch t)) "Bearer " "")
      with (String ch t).
    cbn iota.
    unfold DataModel.gate; now rewrite Hverify.
Qed.

End RoundTrip.

Lemma C6_issued_token_passes_the_gate_witness :
  ∃ token decoded,
    Part000.generateToken Strict.sign Sample.claims "s3cret"
      (Some Sample.one_hour_hs256) = Return token
    ∧ Strict.verify token "s3cret" {| Jwt.algorithms := Some ["HS256"] |}
      = Jwt.Verified decoded
    ∧ same_claims Sample.claims decoded
    ∧ run (Part000.jwtMiddleware Strict.verify "s3cret" None)
          (Sample.request (Some ("Bearer " ++ token)))
      = {| req := set_user (Some decoded)
                    (Sample.request (Some ("Bearer " ++ token)));
           trace := [Continued []
                       (set_user (Some decoded)
                          (Sample.request (Some ("Bearer " ++ token))))] |}.
Proof.
  destruct (proj1 (C6_issued_token_passes_the_gate Strict.sign Strict.verify
                     Strict.valid Strict_round_trip Sample.claims "s3cret"
                     "HS256")
              (Some Sample.one_hour_hs256) None)
    as (token & decoded & Hsign & Hverify & Hsame & Hrun).
  - reflexivity.
  - reflexivity.
  - reflexivity.
  - apply list_elem_of_here.
  - split; [reflexivity|].
    exists "HS256"; split; [reflexivity|].
    apply list_elem_of_here.
  - exists token, decoded.
    split; [exact Hsign|].
    split; [exact Hverify|].
    split; [exact Hsame|].
    apply Hrun.
    unfold Sample.request; cbn [headers].
    apply lookup_singleton_eq.
Defined.

(** * Further properties of the code *)

(** ** Strings *)

Lemma string_app_cons c (a b : string) : String c a ++ b = String c (a ++ b).
Proof. reflexivity. Qed.

Lemma string_app_nil_r (s : string) : s ++ "" = s.
Proof.
  induction s as [|c s IH]; [reflexivity|].
  now rewrite string_app_cons, IH.
Qed.

Lemma string_app_assoc (a b c : string) : (a ++ b) ++ c = a ++ (b ++ c).
Proof.
  induction a as [|x a IH]; [reflexivity|].
  now rewrite !string_app_cons, IH.
Qed.

Lemma startsWith_iff h p : startsWith h p = true ↔ ∃ s, h = p ++ s.
Proof.
  revert h; induction p as [|a p IH]; intros h.
  - split; [exists h; reflexivity | reflexivity].
  - destruct h as [|c h]; cbn.
    + split; [discriminate | intros [s Hs]; discriminate Hs].
    + destruct (Ascii.eqb_spec c a) as [->|Hne].
      * rewrite IH; split; intros [s Hs]; exists s.
        -- now rewrite Hs.
        -- now injection Hs.
      * split; [discriminate | intros [s Hs]; injection Hs; congruence].
Qed.

Lemma replace_eq s pattern replacement :
  replace s pattern replacement
  = if startsWith s pattern
    then replacement ++ substring (String.length pattern) s
    else match s with
         | EmptyString => EmptyString
         | String c cs => String c (replace cs pattern replacement)
         end.
Proof. destruct s; reflexivity. Qed.

Lemma replace_at_start pattern s :
  replace (pattern ++ s) pattern "" = s.
Proof. now rewrite replace_eq, startsWith_app, substring_app. Qed.

(** Removing the first occurrence of a pattern leaves nothing only of the
    empty string and of the pattern itself. *)
Lemma replace_empty_iff h pattern :
  replace h pattern "" = "" ↔ h = "" ∨ h = pattern.
Proof.
  rewrite replace_eq.
  destruct (startsWith h pattern) eqn:Hp.
  - apply startsWith_iff in Hp as [s ->].
    rewrite substring_app; change ("" ++ s) with s; split.
    + intros ->; right; apply string_app_nil_r.
    + intros [H | H].
      * destruct pattern; [exact H | discriminate H].
      * rewrite <- (string_app_nil_r pattern) in H at 2.
        now apply (inj (String.app pattern)) in H.
  - split.
    + destruct h; [now left | discriminate].
    + intros [-> | ->]; [reflexivity|].
      pose proof (startsWith_app pattern "") as H.
      rewrite string_app_nil_r in H; congruence.
Qed.

Lemma has_char_app c a b :
  has_char c (a ++ b) = has_char c a || has_char c b.
Proof.
  induction a as [|d a IH]; [reflexivity|].
  rewrite string_app_cons; cbn.
  destruct (Ascii.eqb d c); [reflexivity | exact IH].
Qed.

Lemma before_no_char c s : has_char c (before c s) = false.
Proof.
  induction s as [|d s IH]; cbn; [reflexivity|].
  destruct (Ascii.eqb d c) eqn:E; cbn; [reflexivity|].
  now rewrite E.
Qed.

(** The first piece of a split is what comes before the first separator. *)
Lemma split_from_head sep piece s :
  ∃ rest, split_from sep piece s = (piece ++ before sep s) :: rest.
Proof.
  revert piece; induction s as [|c s IH]; intros piece; cbn.
  - exists []; now rewrite string_app_nil_r.
  - destruct (Ascii.eqb c sep).
    + eexists; now rewrite string_app_nil_r.
    + destruct (IH (piece ++ String c "")) as [rest ->].
      exists rest; now rewrite string_app_assoc.
Qed.

Lemma split_from_no_sep sep piece s :
  has_char sep s = false → split_from sep piece s = [piece ++ s].
Proof.
  revert piece; induction s as [|c s IH]; intros piece; cbn.
  - now rewrite string_app_nil_r.
  - destruct (Ascii.eqb c sep); [discriminate|].
    intros H; rewrite (IH _ H); now rewrite string_app_assoc.
Qed.

Lemma split_from_app sep piece a b :
  has_char sep a = false →
  split_from sep piece (a ++ String sep b)
  = (piece ++ a) :: split_from sep "" b.
Proof.
  revert piece; induction a as [|c a IH]; intros piece.
  - intros _; change ("" ++ String sep b) with (String sep b); cbn.
    now rewrite Ascii.eqb_refl, string_app_nil_r.
  - rewrite string_app_cons; cbn.
    destruct (Ascii.eqb c sep); [discriminate|].
    intros H; rewrite (IH _ H); now rewrite string_app_assoc.
Qed.

(** No piece of a split has the separator. *)
Lemma split_from_pieces sep piece s x :
  has_char sep piece = false →
  x ∈ split_from sep piece s →
  has_char sep x = false.
Proof.
  revert piece; induction s as [|c s IH]; intros piece Hp; cbn.
  - intros H; apply list_elem_of_singleton in H; now subst.
  - destruct (Ascii.eqb c sep) eqn:E.
    + intros H; apply elem_of_cons in H as [-> | H]; [exact Hp|].
      now apply (IH "").
    + apply IH.
      rewrite has_char_app, Hp; cbn; now rewrite E.
Qed.

(** ** What [extractToken] returns *)

Lemma Part000_extractToken_some r t :
  Part000.extractToken r = Some t →
  headers r !! "authorization" = Some ("Bearer " ++ t).
Proof.
  unfold Part000.extractToken.
  destruct (headers r !! "authorization") as [h|]; [|discriminate].
  destruct (startsWith h "Bearer ") eqn:Hp; [|discriminate].
  apply startsWith_iff in Hp as [s ->].
  change (substring 7 ("Bearer " ++ s))
    with (substring (String.length "Bearer ") ("Bearer " ++ s)).
  rewrite substring_app.
  now intros [= ->].
Qed.

(** X1.  [extractToken] of [part_000] returns [t] exactly for the requests
    whose header is ["Bearer "] followed by [t]: everything after the prefix
    is the token, untouched, and no other header gives a token. *)
Theorem X1_part000_extractToken_inverts_bearer :
  ∀ r t,
    Part000.extractToken r = Some t
    ↔ headers r !! "authorization" = Some ("Bearer " ++ t).
Proof.
  intros r t; split.
  - apply Part000_extractToken_some.
  - apply Part000_extractToken_of_bearer.
Qed.

Lemma Part001_extractToken_after_scheme r scheme t :
  headers r !! "authorization" = Some (scheme ++ " " ++ t) →
  has_char " " scheme = false →
  Part001.extractToken r = before " " t.
Proof.
  intros Hh Hs.
  unfold Part001.extractToken, split; rewrite Hh.
  change (" " ++ t) with (String " " t).
  rewrite (split_from_app " " "" scheme t Hs).
  destruct (split_from_head " " "" t) as [rest ->].
  change ("" ++ before " " t) with (before " " t).
  cbn; now destruct (before " " t).
Qed.

Lemma before_no_char_id c t : has_char c t = false → before c t = t.
Proof.
  induction t as [|d t IH]; [reflexivity|].
  cbn; destruct (Ascii.eqb d c); [discriminate|].
  intros H; now rewrite (IH H).
Qed.

(** X2.  [extractToken] of [part_001] takes any first word for a scheme: of
    a header [scheme ++ " " ++ t] it returns [t] up to its first space; of a
    header without a space it returns the empty string. *)
Theorem X2_part001_extractToken_second_word :
  ∀ r,
    (∀ scheme t,
       headers r !! "authorization" = Some (scheme ++ " " ++ t) →
       has_char " " scheme = false →
       Part001.extractToken r = before " " t)
    ∧ (∀ h,
         headers r !! "authorization" = Some h →
         has_char " " h = false →
         Part001.extractToken r = "").
Proof.
  intros r; split.
  - intros scheme t; apply Part001_extractToken_after_scheme.
  - intros h Hh Hs.
    unfold Part001.extractToken, split; rewrite Hh.
    now rewrite (split_from_no_sep " " "" h Hs).
Qed.

Lemma X2_part001_extractToken_second_word_witness :
  Part001.extractToken (Sample.request (Some "Digest abc 123")) = "abc"
  ∧ Part001.extractToken (Sample.request (Some "abc.def.ghi")) = "".
Proof.
  destruct (X2_part001_extractToken_second_word
              (Sample.request (Some "Digest abc 123"))) as [H _].
  destruct (X2_part001_extractToken_second_word
              (Sample.request (Some "abc.def.ghi"))) as [_ H'].
  split.
  - apply (H "Digest" "abc 123"); reflexivity.
  - apply (H' "abc.def.ghi"); reflexivity.
Defined.

(** X3.  Whatever the request, the string that [extractToken] of [part_001]
    returns has no space; and a request without the header gives the empty
    string. *)
Theorem X3_part001_extractToken_has_no_space :
  ∀ r,
    has_char " " (Part001.extractToken r) = false
    ∧ (headers r !! "authorization" = None → Part001.extractToken r = "").
Proof.
  intros r; unfold Part001.extractToken, split.
  destruct (headers r !! "authorization") as [h|]; [|now split].
  split; [|discriminate].
  destruct (split_from " " "" h !! 1%nat) as [[|c x]|] eqn:E; try reflexivity.
  apply (split_from_pieces " " "" h); [reflexivity|].
  apply list_elem_of_lookup; now exists 1%nat.
Qed.

Lemma X3_part001_extractToken_has_no_space_witness :
  headers (Sample.request None) !! "authorization" = None
  ∧ Part001.extractToken (Sample.request None) = "".
Proof.
  split; [reflexivity|].
  apply (proj2 (X3_part001_extractToken_has_no_space (Sample.request None))).
  reflexivity.
Defined.

(** X4.  On a header ["Bearer "] followed by a token without a space, the
    two copies of [extractToken] return the same token; when the token has a
    space, [part_000] keeps all of it and [part_001] cuts it at the space. *)
Theorem X4_extractToken_copies_compared :
  ∀ r t,
    headers r !! "authorization" = Some ("Bearer " ++ t) →
    Part000.extractToken r = Some t
    ∧ Part001.extractToken r = before " " t
    ∧ (has_char " " t = false → Part001.extractToken r = t).
Proof.
  intros r t Hh.
  split; [now apply Part000_extractToken_of_bearer|].
  assert (H1 : Part001.extractToken r = before " " t).
  { apply (Part001_extractToken_after_scheme r "Bearer" t);
      [exact Hh | reflexivity]. }
  split; [exact H1|].
  intros Hn; rewrite H1; now apply before_no_char_id.
Qed.

Lemma X4_extractToken_copies_compared_witness :
  Part000.extractToken (Sample.request (Some "Bearer abc def")) = Some "abc def"
  ∧ Part001.extractToken (Sample.request (Some "Bearer abc def")) = "abc".
Proof.
  destruct (X4_extractToken_copies_compared
              (Sample.request (Some "Bearer abc def")) "abc def")
    as (H0 & H1 & _); [reflexivity|].
  split; [exact H0 | exact H1].
Defined.

(** ** What the gate lets through, and what it answers *)

(** X5.  The gate of [part_000] calls [next] only for a request whose header
    is ["Bearer "] followed by a non-empty token that the verifier accepted
    under the key and the merged algorithms; [next] then gets no argument and
    finds the request with the decoded claims in [req.user] and nothing else
    changed. *)
Theorem X5_part000_next_only_after_verification :
  ∀ verify secretKey options r args seen,
    Continued args seen
      ∈ trace (run (Part000.jwtMiddleware verify secretKey options) r) →
    ∃ token decoded,
      token ≠ ""
      ∧ headers r !! "authorization" = Some ("Bearer " ++ token)
      ∧ verify token secretKey
          {| Jwt.algorithms :=
               get (Part000.algorithms
                      (Part000.middleware_options
                         (Part000.options_or_default options))) |}
        = Jwt.Verified decoded
      ∧ args = []
      ∧ seen = set_user (Some decoded) r
      ∧ req (run (Part000.jwtMiddleware verify secretKey options) r) = seen.
Proof.
  intros verify secretKey options r args seen.
  rewrite Part000_run; cbn zeta.
  destruct (Part000.extractToken r) as [[|c token]|] eqn:Hx;
    try (cbn [trace]; intros H; apply list_elem_of_singleton in H;
         discriminate H).
  destruct (verify _ _ _) as [err|decoded] eqn:Hv;
    cbn [trace req]; intros H; apply list_elem_of_singleton in H;
    [discriminate H|].
  injection H as -> ->.
  exists (String c token), decoded.
  repeat split; try assumption; [discriminate|].
  now apply Part000_extractToken_some.
Qed.

Lemma X5_part000_next_only_after_verification_witness :
  ∃ token decoded,
    token ≠ ""
    ∧ headers (Sample.request (Some "Bearer HS256.s3cret")) !! "authorization"
      = Some ("Bearer " ++ token)
    ∧ Sample.verify token "s3cret" {| Jwt.algorithms := Some ["HS256"] |}
      = Jwt.Verified decoded.
Proof.
  destruct (X5_part000_next_only_after_verification
              Sample.verify "s3cret" None
              (Sample.request (Some "Bearer HS256.s3cret")) []
              (set_user (Some Sample.decoded_claims)
                 (Sample.request (Some "Bearer HS256.s3cret"))))
    as (token & decoded & Hne & Hh & Hv & _).
  - rewrite Part000_run; apply list_elem_of_here.
  - exists token, decoded; repeat split; assumption.
Defined.

(** X6.  The gate of [part_001] calls [next] only for a request with a
    non-empty header whose text, after the first ["Bearer "] in it is
    removed, is non-empty and was accepted by the verifier; [next] gets no
    argument and finds the request as it came. *)
Theorem X6_part001_next_only_after_verification :
  ∀ verify secretKey options r args seen,
    Continued args seen
      ∈ trace (run (Part001.jwtMiddleware verify secretKey options) r) →
    ∃ h decoded,
      headers r !! "authorization" = Some h
      ∧ h ≠ ""
      ∧ replace h "Bearer " "" ≠ ""
      ∧ verify (replace h "Bearer " "") secretKey
          {| Jwt.algorithms :=
               get (Part001.algorithms
                      (Part001.middleware_options
                         (Part001.options_or_default options))) |}
        = Jwt.Verified decoded
      ∧ args = []
      ∧ seen = r
      ∧ req (run (Part001.jwtMiddleware verify secretKey options) r) = r.
Proof.
  intros verify secretKey options r args seen.
  rewrite Part001_run; cbn zeta.
  destruct (headers r !! "authorization") as [[|c h]|];
    try (cbn [trace]; intros H; apply list_elem_of_singleton in H;
         discriminate H).
  destruct (replace (String c h) "Bearer " "") as [|c' t] eqn:Hr;
    try (cbn [trace]; intros H; apply list_elem_of_singleton in H;
         discriminate H).
  destruct (verify _ _ _) as [err|decoded] eqn:Hv;
    cbn [trace req]; intros H; apply list_elem_of_singleton in H;
    [discriminate H|].
  injection H as -> ->.
  exists (String c h), decoded.
  rewrite Hr; repeat split; try assumption; discriminate.
Qed.

Lemma X6_part001_next_only_after_verification_witness :
  ∃ h decoded,
    headers (Sample.request (Some "HS256.s3cret")) !! "authorization" = Some h
    ∧ h ≠ ""
    ∧ Sample.verify (replace h "Bearer " "") "s3cret"
        {| Jwt.algorithms := Some ["HS256"] |}
      = Jwt.Verified decoded.
Proof.
  destruct (X6_part001_next_only_after_verification
              Sample.verify "s3cret" None
              (Sample.request (Some "HS256.s3cret")) []
              (Sample.request (Some "HS256.s3cret")))
    as (h & decoded & Hh & Hne & _ & Hv & _).
  - rewrite Part001_run; apply list_elem_of_here.
  - exists h, decoded; repeat split; assumption.
Defined.

(** X7.  Every response that either gate emits has status 401, and its
    message is the fixed text of the copy or the merged error message. *)
Theorem X7_responses_are_401 :
  ∀ verify secretKey r resp,
    (∀ options,
       Responded resp
         ∈ trace (run (Part000.jwtMiddleware verify secretKey options) r) →
       status resp = 401
       ∧ (body_message resp = Some "Unauthorized: No token provided"
          ∨ body_message resp
            = errorText
                (Part000.configuration_of
                   (Part000.middleware_options
                      (Part000.options_or_default options)))))
    ∧ (∀ options,
         Responded resp
           ∈ trace (run (Part001.jwtMiddleware verify secretKey options) r) →
         status resp = 401
         ∧ (body_message resp = Some "Unauthorized"
            ∨ body_message resp
              = errorText
                  (Part001.configuration_of
                     (Part001.middleware_options
                        (Part001.options_or_default options))))).
Proof.
  intros verify secretKey r resp; split; intros options.
  - rewrite Part000_run; cbn zeta.
    destruct (Part000.extractToken r) as [[|c token]|];
      try destruct (verify _ _ _);
      cbn [trace]; intros H; apply list_elem_of_singleton in H;
      try discriminate H; injection H as ->; split; auto.
  - rewrite Part001_run; cbn zeta.
    destruct (headers r !! "authorization") as [[|c h]|];
      try destruct (replace _ _ _);
      try destruct (verify _ _ _);
      cbn [trace]; intros H; apply list_elem_of_singleton in H;
      try discriminate H; injection H as ->; split; auto.
Qed.

Lemma X7_responses_are_401_witness :
  Responded {| status := 401; emitter := json;
               body_message := Some "Invalid token" |}
    ∈ trace (run (Part000.jwtMiddleware reject_all "s3cret" None)
               (Sample.request (Some "Bearer abc")))
  ∧ status {| status := 401; emitter := json;
              body_message := Some "Invalid token" |} = 401.
Proof.
  assert (H : Responded {| status := 401; emitter := json;
                           body_message := Some "Invalid token" |}
                ∈ trace (run (Part000.jwtMiddleware reject_all "s3cret" None)
                           (Sample.request (Some "Bearer abc"))))
    by (rewrite Part000_run; apply list_elem_of_here).
  split; [exact H|].
  exact (proj1 (proj1 (X7_responses_are_401 reject_all "s3cret"
                         (Sample.request (Some "Bearer abc"))
                         {| status := 401; emitter := json;
                            body_message := Some "Invalid token" |}) None H)).
Defined.

(** X8.  Which error the verifier reports does not show: with the errors of
    the verifier replaced by any others, both gates leave the same request
    and the same trace. *)
Theorem X8_rejection_reason_never_shown :
  ∀ f verify secretKey r,
    (∀ options,
       run (Part000.jwtMiddleware (relabel f verify) secretKey options) r
       = run (Part000.jwtMiddleware verify secretKey options) r)
    ∧ (∀ options,
         run (Part001.jwtMiddleware (relabel f verify) secretKey options) r
         = run (Part001.jwtMiddleware verify secretKey options) r).
Proof.
  intros f verify secretKey r; split; intros options.
  - rewrite !Part000_run; cbn zeta; unfold relabel.
    destruct (Part000.extractToken r) as [[|c token]|]; try reflexivity.
    destruct (verify _ _ _); reflexivity.
  - rewrite !Part001_run; cbn zeta; unfold relabel.
    destruct (headers r !! "authorization") as [[|c h]|]; try reflexivity.
    destruct (replace _ _ _); try reflexivity.
    destruct (verify _ _ _); reflexivity.
Qed.

(** ** When the verifier is consulted *)

(** X9.  In [part_000] the outcome of a call depends on the verifier exactly
    when the header is ["Bearer "] followed by a non-empty token: every other
    request is answered without consulting it. *)
Theorem X9_part000_verifier_consulted_iff :
  ∀ secretKey options r,
    (∃ verify1 verify2,
       run (Part000.jwtMiddleware verify1 secretKey options) r
       ≠ run (Part000.jwtMiddleware verify2 secretKey options) r)
    ↔ ∃ token,
        token ≠ ""
        ∧ headers r !! "authorization" = Some ("Bearer " ++ token).
Proof.
  intros secretKey options r; split.
  - intros (verify1 & verify2 & Hne).
    rewrite !Part000_run in Hne; cbn zeta in Hne.
    destruct (Part000.extractToken r) as [[|c token]|] eqn:Hx;
      try (now destruct Hne).
    exists (String c token); split; [discriminate|].
    now apply Part000_extractToken_some.
  - intros (token & Hne & Hh).
    exists Sample.accept, reject_all.
    rewrite !Part000_run, (Part000_extractToken_of_bearer r token Hh).
    destruct token as [|c token]; [congruence|].
    cbn; intros H; apply (f_equal trace) in H; discriminate H.
Qed.

(** X10.  In [part_001] the outcome of a call depends on the verifier
    exactly when the header is non-empty and is not ["Bearer "] alone: any
    other text, with or without the prefix, goes to the verifier. *)
Theorem X10_part001_verifier_consulted_iff :
  ∀ secretKey options r,
    (∃ verify1 verify2,
       run (Part001.jwtMiddleware verify1 secretKey options) r
       ≠ run (Part001.jwtMiddleware verify2 secretKey options) r)
    ↔ ∃ h,
        headers r !! "authorization" = Some h ∧ h ≠ "" ∧ h ≠ "Bearer ".
Proof.
  intros secretKey options r; split.
  - intros (verify1 & verify2 & Hne).
    rewrite !Part001_run in Hne; cbn zeta in Hne.
    destruct (headers r !! "authorization") as [[|c h]|] eqn:Hh;
      try (now destruct Hne).
    destruct (replace (String c h) "Bearer " "") as [|c' t] eqn:Hr;
      try (now destruct Hne).
    exists (String c h); repeat split; [discriminate|].
    intros Heq.
    assert (replace (String c h) "Bearer " "" = "") as Hempty
      by (apply replace_empty_iff; now right).
    congruence.
  - intros (h & Hh & Hne & Hnb).
    exists Sample.accept, reject_all.
    rewrite !Part001_run, Hh; cbn zeta.
    destruct h as [|c h]; [congruence|].
    destruct (replace (String c h) "Bearer " "") as [|c' t] eqn:Hr.
    + apply replace_empty_iff in Hr as [Hr | Hr]; [discriminate Hr | congruence].
    + cbn; intros H; apply (f_equal trace) in H; discriminate H.
Qed.

(** ** Merging again, and the two copies side by side *)

Lemma Part000_middleware_options_idem o :
  Part000.middleware_options (Part000.middleware_options o)
  = Part000.middleware_options o.
Proof.
  destruct o as [[| |[s e]] x a]; destruct x, a;
    try destruct s; try destruct e; reflexivity.
Qed.

Lemma Part001_middleware_options_idem o :
  Part001.middleware_options (Part001.middleware_options o)
  = Part001.middleware_options o.
Proof.
  destruct o as [[| |[s e]] x a]; destruct x, a;
    try destruct s; try destruct e; reflexivity.
Qed.

Lemma Part000_merged_message_idem o :
  Part000.merged_message (Part000.middleware_options o)
  = Part000.merged_message o.
Proof. destruct o as [[| |[s e]] x a]; try destruct s; try destruct e; reflexivity. Qed.

Lemma Part001_merged_message_idem o :
  Part001.merged_message (Part001.middleware_options o)
  = Part001.merged_message o.
Proof. destruct o as [[| |[s e]] x a]; try destruct s; try destruct e; reflexivity. Qed.

Lemma Part000_options_some o : Part000.options_or_default (Some o) = o.
Proof. reflexivity. Qed.

Lemma Part001_options_some o : Part001.options_or_default (Some o) = o.
Proof. reflexivity. Qed.

(** X11.  Merging is idempotent: options that are already the result of the
    merge come out of it unchanged, so a gate built from merged options, or
    from the defaults passed explicitly, behaves as the gate built from the
    original options, or from none; the same holds of [generateToken]. *)
Theorem X11_merge_is_idempotent :
  (∀ o, Part000.middleware_options (Part000.middleware_options o)
        = Part000.middleware_options o
        ∧ Part000.token_options (Part000.token_options o)
          = Part000.token_options o
        ∧ Part001.middleware_options (Part001.middleware_options (to_part001 o))
          = Part001.middleware_options (to_part001 o)
        ∧ Part001.token_options (Part001.token_options (to_part001 o))
          = Part001.token_options (to_part001 o))
  ∧ (∀ verify secretKey r o,
       run (Part000.jwtMiddleware verify secretKey
              (Some (Part000.middleware_options o))) r
       = run (Part000.jwtMiddleware verify secretKey (Some o)) r
       ∧ run (Part000.jwtMiddleware verify secretKey
                (Some Part000.DEFAULT_OPTIONS)) r
         = run (Part000.jwtMiddleware verify secretKey None) r)
  ∧ (∀ verify secretKey r o,
       run (Part001.jwtMiddleware verify secretKey
              (Some (Part001.middleware_options o))) r
       = run (Part001.jwtMiddleware verify secretKey (Some o)) r
       ∧ run (Part001.jwtMiddleware verify secretKey
                (Some (Part001.middleware_options
                         {| Part001.message := Missing;
                            Part001.expiresIn := Missing;
                            Part001.algorithms := Missing |}))) r
         = run (Part001.jwtMiddleware verify secretKey None) r)
  ∧ (∀ sign payload secretKey o,
       Part000.generateToken sign payload secretKey
         (Some (Part000.token_options o))
       = Part000.generateToken sign payload secretKey (Some o)
       ∧ Part001.generateToken sign payload secretKey
           (Some (Part001.token_options (to_part001 o)))
         = Part001.generateToken sign payload secretKey (Some (to_part001 o))).
Proof.
  split; [|split; [|split]].
  - intros o; split; [apply Part000_middleware_options_idem|].
    split; [|split; [apply Part001_middleware_options_idem|]];
      destruct o as [m x a]; destruct m, x, a; reflexivity.
  - intros verify secretKey r o; split; [|reflexivity].
    rewrite !Part000_run; cbn zeta.
    rewrite !Part000_options_some.
    now rewrite Part000_middleware_options_idem, Part000_merged_message_idem.
  - intros verify secretKey r o; split; [|reflexivity].
    rewrite !Part001_run; cbn zeta.
    rewrite !Part001_options_some.
    now rewrite Part001_middleware_options_idem, Part001_merged_message_idem.
  - intros sign payload secretKey o; split;
      destruct o as [m x a]; destruct x, a; reflexivity.
Qed.

(** X12.  The two copies of [generateToken] are one function: on the same
    payload, key and options (written with the keys of each copy, or left
    out) they return the same result for every signing primitive. *)
Theorem X12_copies_issue_alike :
  ∀ sign payload secretKey o,
    Part000.generateToken sign payload secretKey o
    = Part001.generateToken sign payload secretKey (to_part001 <$> o).
Proof.
  intros sign payload secretKey [[m x a]|]; [|reflexivity].
  destruct x, a; reflexivity.
Qed.

Lemma copies_merge_alike o :
  Part001.configuration_of
    (Part001.middleware_options (Part001.options_or_default (to_part001 <$> o)))
  = Part000.configuration_of
      (Part000.middleware_options (Part000.options_or_default o)).
Proof.
  destruct o as [[[| |[s e]] x a]|]; try reflexivity;
    try destruct s; try destruct e; destruct x, a; reflexivity.
Qed.

(** X13.  On a header ["Bearer "] followed by a non-empty token the two
    gates decide alike: they ask the verifier about the same token under the
    same algorithms, call [next] in the same cases, and answer a rejection
    with the same status and message. *)
Theorem X13_copies_admit_alike :
  ∀ verify secretKey o r token,
    headers r !! "authorization" = Some ("Bearer " ++ token) →
    token ≠ "" →
    map seen_by_client
      (trace (run (Part000.jwtMiddleware verify secretKey o) r))
    = map seen_by_client
        (trace (run (Part001.jwtMiddleware verify secretKey (to_part001 <$> o)) r)).
Proof.
  intros verify secretKey o r token Hh Hne.
  rewrite Part000_run, Part001_run; cbn zeta.
  rewrite (Part000_extractToken_of_bearer r token Hh), Hh.
  rewrite replace_at_start.
  pose proof (copies_merge_alike o) as Hc.
  apply (f_equal allowedAlgorithms) in Hc as Ha.
  apply (f_equal errorText) in Hc as He.
  cbn [Part000.configuration_of Part001.configuration_of allowedAlgorithms
       errorText] in Ha, He.
  rewrite Part000_message_key, Part001_message_key in He.
  cbn [get mbind option_bind] in He.
  destruct token as [|c t]; [congruence|].
  change ("Bearer " ++ String c t)
    with (String "B" ("earer " ++ String c t)).
  cbn iota.
  rewrite Ha.
  destruct (verify _ _ _); [|reflexivity].
  cbn [trace map seen_by_client status body_message].
  now rewrite He.
Qed.

Lemma X13_copies_admit_alike_witness :
  map seen_by_client
    (trace (run (Part000.jwtMiddleware reject_all "s3cret" None)
              (Sample.request (Some "Bearer abc"))))
  = map seen_by_client
      (trace (run (Part001.jwtMiddleware reject_all "s3cret" None)
                (Sample.request (Some "Bearer abc")))).
Proof.
  apply (X13_copies_admit_alike reject_all "s3cret" None
           (Sample.request (Some "Bearer abc")) "abc").
  - reflexivity.
  - discriminate.
Defined.

(** ** Settings that one function does not read *)

(** X14.  The gates never read the expiry, and [generateToken] never reads
    the messages: changing [expiresIn] alone changes no call of a handler,
    and changing [message] alone changes no result of [generateToken]. *)
Theorem X14_unread_settings :
  (∀ verify secretKey r m a x x',
     run (Part000.jwtMiddleware verify secretKey
            (Some {| Part000.message := m; Part000.expiresIn := x;
                     Part000.algorithms := a |})) r
     = run (Part000.jwtMiddleware verify secretKey
              (Some {| Part000.message := m; Part000.expiresIn := x';
                       Part000.algorithms := a |})) r)
  ∧ (∀ verify secretKey r m a x x',
       run (Part001.jwtMiddleware verify secretKey
              (Some {| Part001.message := m; Part001.expiresIn := x;
                       Part001.algorithms := a |})) r
       = run (Part001.jwtMiddleware verify secretKey
                (Some {| Part001.message := m; Part001.expiresIn := x';
                         Part001.algorithms := a |})) r)
  ∧ (∀ sign payload secretKey x a m m',
       Part000.generateToken sign payload secretKey
         (Some {| Part000.message := m; Part000.expiresIn := x;
                  Part000.algorithms := a |})
       = Part000.generateToken sign payload secretKey
           (Some {| Part000.message := m'; Part000.expiresIn := x;
                    Part000.algorithms := a |}))
  ∧ (∀ sign payload secretKey x a m m',
       Part001.generateToken sign payload secretKey
         (Some {| Part001.message := m; Part001.expiresIn := x;
                  Part001.algorithms := a |})
       = Part001.generateToken sign payload secretKey
           (Some {| Part001.message := m'; Part001.expiresIn := x;
                    Part001.algorithms := a |})).
Proof.
  split; [|split; [|split]].
  - intros; rewrite !Part000_run; reflexivity.
  - intros; rewrite !Part001_run; reflexivity.
  - intros; reflexivity.
  - intros; reflexivity.
Qed.

(** ** The request after the call *)

(** X15.  Neither gate touches the headers, and a call that does not reach
    [next] leaves the whole request as it came: [part_000] writes [req.user]
    on the accepting path only, [part_001] never. *)
Theorem X15_request_untouched_unless_admitted :
  ∀ verify secretKey r,
    (∀ options,
       let w := run (Part000.jwtMiddleware verify secretKey options) r in
       headers (req w) = headers r
       ∧ (continuations w = [] → req w = r))
    ∧ (∀ options,
         req (run (Part001.jwtMiddleware verify secretKey options) r) = r).
Proof.
  intros verify secretKey r; split; intros options;
    [|apply Part001_request_untouched].
  cbn zeta; rewrite Part000_run; cbn zeta.
  destruct (Part000.extractToken r) as [[|c token]|]; try (now split).
  destruct (verify _ _ _); split; try reflexivity; discriminate.
Qed.

Lemma X15_request_untouched_unless_admitted_witness :
  continuations (run (Part000.jwtMiddleware reject_all "s3cret" None)
                   (Sample.request (Some "Bearer abc"))) = []
  ∧ req (run (Part000.jwtMiddleware reject_all "s3cret" None)
           (Sample.request (Some "Bearer abc")))
    = Sample.request (Some "Bearer abc").
Proof.
  assert (H : continuations
                (run (Part000.jwtMiddleware reject_all "s3cret" None)
                   (Sample.request (Some "Bearer abc"))) = [])
    by (rewrite Part000_run; reflexivity).
  split; [exact H|].
  exact (proj2 (proj1 (X15_request_untouched_unless_admitted
                         reject_all "s3cret"
                         (Sample.request (Some "Bearer abc"))) None) H).
Defined.

(** ** Headers without a scheme *)

Lemma replace_no_occurrence pattern s :
  occurs pattern s = false → replace s pattern "" = s.
Proof.
  induction s as [|c s IH].
  - rewrite replace_eq; cbn [occurs].
    destruct (startsWith "" pattern); [discriminate | reflexivity].
  - cbn [occurs]; rewrite replace_eq.
    destruct (startsWith (String c s) pattern); [discriminate|].
    cbn; intros H; now rewrite (IH H).
Qed.

(** X16.  The gate of [part_001] asks for no scheme: a non-empty header
    without any ["Bearer "] in it is handed to the verifier whole, and the
    request goes on to [next] when the verifier accepts it. *)
Theorem X16_part001_bare_header_is_a_token :
  ∀ verify secretKey options r h,
    headers r !! "authorization" = Some h →
    h ≠ "" →
    occurs "Bearer " h = false →
    run (Part001.jwtMiddleware verify secretKey options) r
    = match verify h secretKey
              {| Jwt.algorithms :=
                   get (Part001.algorithms
                          (Part001.middleware_options
                             (Part001.options_or_default options))) |}
      with
      | Jwt.Rejected _ =>
          {| req := r;
             trace :=
               [Responded
                  {| status := 401; emitter := send;
                     body_message :=
                       get (Part001.errorMessage
                              (Part001.merged_message
                                 (Part001.options_or_default options))) |}] |}
      | Jwt.Verified _ => {| req := r; trace := [Continued [] r] |}
      end.
Proof.
  intros verify secretKey options r h Hh Hne Hocc.
  rewrite Part001_run, Hh; cbn zeta.
  rewrite (replace_no_occurrence "Bearer " h Hocc).
  destruct h as [|c h]; [congruence | reflexivity].
Qed.

Lemma X16_part001_bare_header_is_a_token_witness :
  run (Part001.jwtMiddleware Sample.verify "s3cret" None)
      (Sample.request (Some "HS256.s3cret"))
  = {| req := Sample.request (Some "HS256.s3cret");
       trace := [Continued [] (Sample.request (Some "HS256.s3cret"))] |}.
Proof.
  rewrite (X16_part001_bare_header_is_a_token Sample.verify "s3cret" None
             (Sample.request (Some "HS256.s3cret")) "HS256.s3cret");
    [reflexivity | reflexivity | discriminate | reflexivity].
Defined.
